(** * OpenImageIO [platform.h]: CPU feature probe, aligned allocation helpers,
      endianness tests and [OIIO_ALLOCA]

    A shallow embedding of the executable parts of
    [src/include/OpenImageIO/platform.h] and the properties the
    specification states about them.

    Modelling conventions.
    - The preprocessor symbols that select the code are fields of a [build]
      record; every function of the header is a function of the build it is
      compiled for.
    - A C [int] is a [Z] in the range of [to_int32]; a register is a [Z] in
      the range of [to_uint32]; a pointer is an address in [Z], null being 0.
    - Calls that leave the header (the [cpuid] instruction, [aligned_malloc],
      [aligned_free], [alloca], constructors and destructors of the template
      argument) are recorded as [event]s in the log of the [world], besides
      their effect on it.  A constructor returns or exits by an exception,
      which then leaves every function of the header on its way (none of
      them has a handler); a destructor returns (destructors are
      [noexcept] unless declared otherwise).
    - The functions whose definition is outside the header ([aligned_malloc],
      [aligned_free], the [alloca] primitive) are the operations of the
      [Platform] class. *)

From Stdlib Require Import ZArith Lia Bool.
From stdpp Require Import base list gmap strings.

Local Open Scope Z_scope.

(** ** Build configuration *)

(** The preprocessor symbols the modelled code tests, and the constants the
    compiler supplies. *)
Record build := {
  def_M_X64 : bool;          (* _M_X64 *)
  def_M_IX86 : bool;         (* _M_IX86 *)
  def_M_AMD64 : bool;        (* _M_AMD64 *)
  def_i386 : bool;           (* __i386__ *)
  def_x86_64 : bool;         (* __x86_64__ *)
  def_MSC_VER : bool;        (* _MSC_VER *)
  def_WIN32 : bool;          (* _WIN32 *)
  def_GNUC : bool;           (* __GNUC__ *)
  def_NDEBUG : bool;         (* NDEBUG: assert() expands to nothing *)
  ORDER_LITTLE_ENDIAN : Z;   (* __ORDER_LITTLE_ENDIAN__ *)
  ORDER_BIG_ENDIAN : Z;      (* __ORDER_BIG_ENDIAN__ *)
  BYTE_ORDER : Z;            (* __BYTE_ORDER__ *)
  alignof_voidp : Z;         (* alignof(void* ) *)
  size_t_bits : Z            (* width of std::size_t *)
}.

(** ** Machine integers *)

Definition to_uint32 (z : Z) : Z := z mod 2 ^ 32.
Definition to_int32 (z : Z) : Z := (z + 2 ^ 31) mod 2 ^ 32 - 2 ^ 31.
Definition to_size_t (cfg : build) (z : Z) : Z := z mod 2 ^ size_t_bits cfg.

Definition nullptr : Z := 0.

(** ** The processor *)

(** What the [cpuid] instruction leaves in the four registers. *)
Record cpuid_out := { out_eax : Z; out_ebx : Z; out_ecx : Z; out_edx : Z }.

(** The capability state of the hardware: the answer to every leaf and
    sub-leaf. *)
Definition processor := Z -> Z -> cpuid_out.

(** The registers the inline assembly names; [r1] is the general register
    the compiler picks for operand [%1] of the 32-bit variant.  The
    templates are read in AT&T order, source first.  The register file is
    the one the asm statement works on: what the compiler does around the
    statement (saving and restoring a callee-saved register it has
    declared as an output) is not part of it. *)
Record regs := { eax : Z; ebx : Z; ecx : Z; edx : Z; r1 : Z }.

Inductive insn :=
| CPUID           (* cpuid *)
| MOV_EBX_R1      (* mov{l} {%%}ebx, %1 *)
| XCHG_EBX_R1.    (* xchg{l} {%%}ebx, %1 *)

(** ** External calls *)

Inductive event (value : Type) :=
| EvCpuid (leaf subleaf : Z)
| EvAlignedMalloc (size align ret : Z)
| EvAlignedFree (ptr : Z)
| EvConstruct (ty : string) (ptr : Z) (args : list value)
| EvDestroy (ty : string) (ptr : Z)
| EvAlloca (bytes ret : Z).

Arguments EvCpuid {value} leaf subleaf.
Arguments EvAlignedMalloc {value} size align ret.
Arguments EvAlignedFree {value} ptr.
Arguments EvConstruct {value} ty ptr args.
Arguments EvDestroy {value} ty ptr.
Arguments EvAlloca {value} bytes ret.

(** The functions the header declares or uses but does not define. *)
Class Platform (mem : Type) := {
  aligned_malloc : Z -> Z -> mem -> Z * mem;
  aligned_free : Z -> mem -> mem;
  alloca : Z -> mem -> Z * mem
}.

(** ** The state of a running program *)

Record world (value mem : Type) := World {
  w_cpu : processor;                       (* hardware, never written *)
  w_regs : regs;
  w_mem : mem;                             (* allocator and stack *)
  w_objs : gmap Z (string * list value);   (* objects within their lifetime *)
  w_log : list (event value)
}.

Arguments World {value mem}.
Arguments w_cpu {value mem}.
Arguments w_regs {value mem}.
Arguments w_mem {value mem}.
Arguments w_objs {value mem}.
Arguments w_log {value mem}.

Inductive outcome (W A : Type) :=
| Returns (a : A) (w : W)
| AssertFails (w : W)      (* assert() failed: the program aborts *)
| Undefined                (* undefined behaviour *)
| Throws (w : W).          (* an exception is on its way to the caller *)

Arguments Returns {W A}.
Arguments AssertFails {W A}.
Arguments Undefined {W A}.
Arguments Throws {W A}.

Definition result {W A} (o : outcome W A) : option A :=
  match o with Returns a _ => Some a | _ => None end.

(** A template argument [T]: its name, [sizeof(T)], [alignof(T)], and
    whether the constructor the new-expression selects exits by an
    exception. *)
Record cxx_type := {
  ty_name : string;
  ty_sizeof : Z;
  ty_alignof : Z;
  ty_ctor_throws : bool
}.

(** The result of instantiating a template. *)
Inductive instantiation (A : Type) :=
| Compiles (a : A)
| StaticAssertFails (msg : string).

Arguments Compiles {A}.
Arguments StaticAssertFails {A}.

(** A local array of [int]: a cell is [None] until it is written. *)
Definition int_array := list (option Z).

(** ** State and failure *)

Definition M (W A : Type) : Type := W -> outcome W A.

Definition ret {W A} (a : A) : M W A := fun w => Returns a w.

Definition bind {W A B} (m : M W A) (k : A -> M W B) : M W B :=
  fun w => match m w with
           | Returns a w' => k a w'
           | AssertFails w' => AssertFails w'
           | Undefined => Undefined
           | Throws w' => Throws w'
           end.

Notation "'let*' x ':=' m 'in' k" := (bind m (fun x => k))
  (at level 10, x name, m at level 100, k at level 200).
Notation "m1 '>>' m2" := (bind m1 (fun _ => m2))
  (at level 100, m2 at level 200, right associativity).

Section Header.

Context {value mem : Type} `{Platform mem}.
Variable cfg : build.

(** Programs of the header. *)
Abbreviation prog := (M (world value mem)).

Definition emit (e : event value) : prog unit :=
  fun w => Returns tt (World (w_cpu w) (w_regs w) (w_mem w) (w_objs w) (w_log w ++ [e])).

Definition set_regs (r : regs) : prog unit :=
  fun w => Returns tt (World (w_cpu w) r (w_mem w) (w_objs w) (w_log w)).

Definition get_regs : prog regs := fun w => Returns (w_regs w) w.

Definition load (a : int_array) (k : nat) : prog Z :=
  fun w => match a !! k with
           | Some (Some v) => Returns v w
           | _ => Undefined
           end.

Definition store (a : int_array) (k : nat) (v : Z) : int_array := <[k := Some v]> a.

(** [int i[4];] *)
Definition int4 : int_array := replicate 4 None.

(** *** The inline assembly *)

Definition exec (i : insn) : prog unit :=
  fun w =>
    let r := w_regs w in
    match i with
    | CPUID =>
        let o := w_cpu w (eax r) (ecx r) in
        (set_regs {| eax := to_uint32 (out_eax o); ebx := to_uint32 (out_ebx o);
                     ecx := to_uint32 (out_ecx o); edx := to_uint32 (out_edx o);
                     r1 := r1 r |} >>
         emit (EvCpuid (eax r) (ecx r))) w
    | MOV_EBX_R1 =>
        set_regs {| eax := eax r; ebx := ebx r; ecx := ecx r; edx := edx r; r1 := ebx r |} w
    | XCHG_EBX_R1 =>
        set_regs {| eax := eax r; ebx := r1 r; ecx := ecx r; edx := edx r; r1 := ebx r |} w
    end.

Fixpoint exec_all (l : list insn) : prog unit :=
  match l with
  | [] => ret tt
  | i :: l' => exec i >> exec_all l'
  end.

(** Input operands ["0" (infoType), "2" (extra)]: the registers of output
    operands 0 and 2, which are [eax] and [ecx] in both variants. *)
Definition asm_inputs (infoType extra : Z) : prog unit :=
  let* r := get_regs in
  set_regs {| eax := to_uint32 infoType; ebx := ebx r; ecx := to_uint32 extra;
              edx := edx r; r1 := r1 r |}.

(** Output operands: [info[0]], [info[2]], [info[3]] from [eax], [ecx],
    [edx]; [info[1]] from the register [op1] selects. *)
Definition asm_outputs (op1 : regs -> Z) (info : int_array) : prog int_array :=
  let* r := get_regs in
  ret (store (store (store (store info 0 (to_int32 (eax r)))
                                      1 (to_int32 (op1 r)))
                                      2 (to_int32 (ecx r)))
                                      3 (to_int32 (edx r))).

(** The MSVC intrinsic [__cpuidex(info, infoType, extra)]: [cpuid] with
    [eax = infoType], [ecx = extra], the four registers stored in [info]. *)
Definition __cpuidex (info : int_array) (infoType extra : Z) : prog int_array :=
  asm_inputs infoType extra >> exec CPUID >> asm_outputs ebx info.

Definition x86_family : bool :=
  def_M_X64 cfg || def_M_IX86 cfg || def_M_AMD64 cfg || def_i386 cfg || def_x86_64 cfg.

(** [cpuid(info, infoType, extra)].  The array is the caller's: the function
    returns it as it has been written. *)
Definition cpuid (info : int_array) (infoType extra : Z) : prog int_array :=
  if x86_family then
    if def_MSC_VER cfg then
      __cpuidex info infoType extra
    else if def_x86_64 cfg then
      asm_inputs infoType extra >>
      exec_all [CPUID] >>
      asm_outputs ebx info
    else
      asm_inputs infoType extra >>
      exec_all [MOV_EBX_R1; CPUID; XCHG_EBX_R1] >>
      asm_outputs r1 info
  else
    ret (store (store (store (store info 0 0) 1 0) 2 0) 3 0).

(** [(x & m) != 0] on [int] operands. *)
Definition test_mask (x m : Z) : bool := negb (Z.land x m =? 0).

Definition cpu_has_sse2 : prog bool :=
  let* i := cpuid int4 1 0 in let* x := load i 3 in ret (test_mask x (Z.shiftl 1 26)).
Definition cpu_has_sse3 : prog bool :=
  let* i := cpuid int4 1 0 in let* x := load i 2 in ret (test_mask x (Z.shiftl 1 0)).
Definition cpu_has_ssse3 : prog bool :=
  let* i := cpuid int4 1 0 in let* x := load i 2 in ret (test_mask x (Z.shiftl 1 9)).
Definition cpu_has_fma : prog bool :=
  let* i := cpuid int4 1 0 in let* x := load i 2 in ret (test_mask x (Z.shiftl 1 12)).
Definition cpu_has_sse41 : prog bool :=
  let* i := cpuid int4 1 0 in let* x := load i 2 in ret (test_mask x (Z.shiftl 1 19)).
Definition cpu_has_sse42 : prog bool :=
  let* i := cpuid int4 1 0 in let* x := load i 2 in ret (test_mask x (Z.shiftl 1 20)).
Definition cpu_has_popcnt : prog bool :=
  let* i := cpuid int4 1 0 in let* x := load i 2 in ret (test_mask x (Z.shiftl 1 23)).
Definition cpu_has_avx : prog bool :=
  let* i := cpuid int4 1 0 in let* x := load i 2 in ret (test_mask x (Z.shiftl 1 28)).
Definition cpu_has_f16c : prog bool :=
  let* i := cpuid int4 1 0 in let* x := load i 2 in ret (test_mask x (Z.shiftl 1 29)).
Definition cpu_has_rdrand : prog bool :=
  let* i := cpuid int4 1 0 in let* x := load i 2 in ret (test_mask x (Z.shiftl 1 30)).
Definition cpu_has_avx2 : prog bool :=
  let* i := cpuid int4 7 0 in let* x := load i 1 in ret (test_mask x (Z.shiftl 1 5)).
Definition cpu_has_avx512f : prog bool :=
  let* i := cpuid int4 7 0 in let* x := load i 1 in ret (test_mask x (Z.shiftl 1 16)).
Definition cpu_has_avx512dq : prog bool :=
  let* i := cpuid int4 7 0 in let* x := load i 1 in ret (test_mask x (Z.shiftl 1 17)).
Definition cpu_has_avx512ifma : prog bool :=
  let* i := cpuid int4 7 0 in let* x := load i 1 in ret (test_mask x (Z.shiftl 1 21)).
Definition cpu_has_avx512pf : prog bool :=
  let* i := cpuid int4 7 0 in let* x := load i 1 in ret (test_mask x (Z.shiftl 1 26)).
Definition cpu_has_avx512er : prog bool :=
  ret false.
Definition cpu_has_avx512cd : prog bool :=
  let* i := cpuid int4 7 0 in let* x := load i 1 in ret (test_mask x (Z.shiftl 1 28)).
Definition cpu_has_avx512bw : prog bool :=
  let* i := cpuid int4 7 0 in let* x := load i 1 in ret (test_mask x (Z.shiftl 1 30)).
(** The mask [0x80000000] is an [unsigned int]: the [int] operand is
    converted to [unsigned int] before the [&]. *)
Definition cpu_has_avx512vl : prog bool :=
  let* i := cpuid int4 7 0 in let* x := load i 1 in ret (test_mask (to_uint32 x) 0x80000000).

(** *** Endianness *)

Inductive endian := little | big | native.

(** The value of an enumerator of [enum class endian]. *)
Definition endian_value (e : endian) : Z :=
  if def_WIN32 cfg then
    match e with
    | little => 0
    | big => 1
    | native => 0 (* native = little *)
    end
  else
    match e with
    | little => ORDER_LITTLE_ENDIAN cfg
    | big => ORDER_BIG_ENDIAN cfg
    | native => BYTE_ORDER cfg
    end.

Definition littleendian : bool := endian_value native =? endian_value little.

Definition bigendian : bool := endian_value native =? endian_value big.

(** *** [OIIO_ALLOCA] *)

(** [assert(c)] of [<cassert>]. *)
Definition assert (c : bool) : prog unit :=
  if def_NDEBUG cfg then ret tt
  else if c then ret tt
  else fun w => AssertFails w.

(** A call of the stack-allocation primitive, [__builtin_alloca] or
    [alloca]. *)
Definition call_alloca (bytes : Z) : prog Z :=
  fun w =>
    let '(p, m) := alloca bytes (w_mem w) in
    Returns p (World (w_cpu w) (w_regs w) m (w_objs w) (w_log w ++ [EvAlloca bytes p])).

(** [OIIO_ALLOCA(type, size)] at an argument that [assert(size < (1<<20))]
    compares as a whole: an identifier, a literal, an expression between
    parentheses, or one whose operators bind at least as tightly as [<].
    [size] is the value of that argument, and [(size) * sizeof(type)] is
    computed in [std::size_t].  [OIIO_ALLOCA_written], further down, is
    the macro at the arguments the assertion takes apart. *)
Definition OIIO_ALLOCA (type : cxx_type) (size : Z) : prog Z :=
  if def_GNUC cfg then
    assert (size <? Z.shiftl 1 20) >>
    if negb (size =? 0) then call_alloca (to_size_t cfg (size * ty_sizeof type))
    else ret nullptr
  else
    assert (size <? Z.shiftl 1 20) >>
    if negb (size =? 0) then call_alloca (to_size_t cfg (size * ty_sizeof type))
    else ret nullptr.

(** *** Aligned allocation *)

Definition call_aligned_malloc (size align : Z) : prog Z :=
  fun w =>
    let '(p, m) := aligned_malloc size align (w_mem w) in
    Returns p (World (w_cpu w) (w_regs w) m (w_objs w)
                     (w_log w ++ [EvAlignedMalloc size align p])).

Definition call_aligned_free (ptr : Z) : prog unit :=
  fun w =>
    Returns tt (World (w_cpu w) (w_regs w) (aligned_free ptr (w_mem w)) (w_objs w)
                      (w_log w ++ [EvAlignedFree ptr])).

(** [new (ptr) T(std::forward<Args>(args)...)]: the constructor of [T] runs
    at [ptr].  If it returns, the lifetime of the object starts and the
    value of the expression is [ptr].  If it exits by an exception, no
    object has come to life, the placement deallocation function the
    new-expression calls does nothing, and the exception goes on. *)
Definition placement_new (T : cxx_type) (ptr : Z) (args : list value) : prog Z :=
  fun w =>
    if ty_ctor_throws T then
      Throws (World (w_cpu w) (w_regs w) (w_mem w) (w_objs w)
                    (w_log w ++ [EvConstruct (ty_name T) ptr args]))
    else
      Returns ptr (World (w_cpu w) (w_regs w) (w_mem w)
                         (<[ptr := (ty_name T, args)]> (w_objs w))
                         (w_log w ++ [EvConstruct (ty_name T) ptr args])).

(** [t->~T()]: the destructor of [T] runs at [t], the lifetime of the object
    ends. *)
Definition destroy (T : cxx_type) (t : Z) : prog unit :=
  fun w =>
    Returns tt (World (w_cpu w) (w_regs w) (w_mem w)
                      (delete t (w_objs w))
                      (w_log w ++ [EvDestroy (ty_name T) t])).

(** [aligned_new<T, Args...>]: the instantiation, and for an instantiation
    that compiles the function of the arguments. *)
Definition aligned_new (T : cxx_type) : instantiation (list value -> prog Z) :=
  if ty_alignof T >? alignof_voidp cfg then
    Compiles (fun args =>
      let* ptr := call_aligned_malloc (ty_sizeof T) (ty_alignof T) in
      if negb (ptr =? nullptr) then placement_new T ptr args else ret nullptr)
  else
    StaticAssertFails "Type doesn't seem to be over-aligned, aligned_new is not required".

(** [aligned_delete<T>(t)]. *)
Definition aligned_delete (T : cxx_type) (t : Z) : prog unit :=
  if negb (t =? nullptr) then
    destroy T t >>
    call_aligned_free t
  else ret tt.

(** *** The feature queries as a family *)

Inductive feature :=
| sse2 | sse3 | ssse3 | fma | sse41 | sse42 | popcnt | avx | f16c | rdrand
| avx2 | avx512f | avx512dq | avx512ifma | avx512pf | avx512er | avx512cd
| avx512bw | avx512vl.

Definition cpu_has (f : feature) : prog bool :=
  match f with
  | sse2 => cpu_has_sse2 | sse3 => cpu_has_sse3 | ssse3 => cpu_has_ssse3
  | fma => cpu_has_fma | sse41 => cpu_has_sse41 | sse42 => cpu_has_sse42
  | popcnt => cpu_has_popcnt | avx => cpu_has_avx | f16c => cpu_has_f16c
  | rdrand => cpu_has_rdrand | avx2 => cpu_has_avx2 | avx512f => cpu_has_avx512f
  | avx512dq => cpu_has_avx512dq | avx512ifma => cpu_has_avx512ifma
  | avx512pf => cpu_has_avx512pf | avx512er => cpu_has_avx512er
  | avx512cd => cpu_has_avx512cd | avx512bw => cpu_has_avx512bw
  | avx512vl => cpu_has_avx512vl
  end.

(** A program that calls the queries of [fs] one after the other. *)
Fixpoint cpu_has_all (fs : list feature) : prog (list bool) :=
  match fs with
  | [] => ret []
  | f :: fs' =>
      let* b := cpu_has f in
      let* bs := cpu_has_all fs' in
      ret (b :: bs)
  end.

End Header.

(** ** The allocator of the specification *)

(** Modelled from the spec: [aligned_malloc] and [aligned_free] are declared
    in the header ([OIIO_API]) and defined in a source file of the library
    that is not part of the verified sources.  The specification describes
    them: [aligned_malloc(size, align)] returns a pointer to at least [size]
    bytes whose address is a multiple of [align], or null if the underlying
    allocator cannot satisfy the request; [align] must be a power of two;
    [aligned_free(ptr)] releases a block [aligned_malloc] returned and does
    nothing for null.  The underlying allocator is a region of addresses
    [a_next .. a_end) that has never been handed out, and the blocks that
    are live; a request of size 0 gets null (one of the two results the
    specification allows), and so does an alignment that is not a power of
    two. *)
Record arena := Arena {
  a_next : Z;             (* lowest address never handed out *)
  a_end : Z;              (* end of the memory the allocator can give *)
  a_blocks : gmap Z Z;    (* live blocks: address and size *)
  a_sp : Z                (* stack pointer, for alloca *)
}.

Definition is_pow2 (n : Z) : bool := (0 <? n) && (Z.land n (n - 1) =? 0).

(** The lowest multiple of [align] that is at least [a], for [align] a power
    of two. *)
Definition align_up (a align : Z) : Z :=
  Z.land (a + (align - 1)) (Z.lnot (align - 1)).

(** Modelled from the spec: [aligned_malloc(size, align)] as the
    specification describes it, the definition being outside the verified
    sources. *)
Definition arena_aligned_malloc (size align : Z) (h : arena) : Z * arena :=
  if is_pow2 align then
    let a := align_up (a_next h) align in
    if (0 <? size) && (a + size <=? a_end h) then
      (a, Arena (a + size) (a_end h) (<[a := size]> (a_blocks h)) (a_sp h))
    else (nullptr, h)
  else (nullptr, h).

(** Modelled from the spec: [aligned_free(ptr)] as the specification
    describes it, the definition being outside the verified sources. *)
Definition arena_aligned_free (ptr : Z) (h : arena) : arena :=
  if ptr =? nullptr then h
  else Arena (a_next h) (a_end h) (delete ptr (a_blocks h)) (a_sp h).

(** The stack grows towards lower addresses. *)
Definition arena_alloca (bytes : Z) (h : arena) : Z * arena :=
  let sp := a_sp h - bytes in
  (sp, Arena (a_next h) (a_end h) (a_blocks h) sp).

#[global] Instance arena_platform : Platform arena := {
  aligned_malloc := arena_aligned_malloc;
  aligned_free := arena_aligned_free;
  alloca := arena_alloca
}.

(** The blocks of a well-formed arena are non-empty, lie below [a_next] and
    do not overlap. *)
Record arena_ok (h : arena) : Prop := {
  ok_next : 0 < a_next h;
  ok_end : a_next h <= a_end h;
  ok_blocks : forall a s, a_blocks h !! a = Some s -> 0 < a /\ 0 < s /\ a + s <= a_next h;
}.

(** [a] heads a live block of at least [n] bytes that lies in the memory of
    the allocator and shares no byte with another live block. *)
Definition heads_block (h : arena) (a n : Z) : Prop :=
  exists s, a_blocks h !! a = Some s /\ n <= s /\ a + s <= a_end h /\
    forall a' s', a' <> a -> a_blocks h !! a' = Some s' -> a' + s' <= a \/ a + s <= a'.

(** ** Sample builds, processors and types *)

Definition gcc_linux_x86_64 : build :=
  {| def_M_X64 := false; def_M_IX86 := false; def_M_AMD64 := false;
     def_i386 := false; def_x86_64 := true; def_MSC_VER := false;
     def_WIN32 := false; def_GNUC := true; def_NDEBUG := false;
     ORDER_LITTLE_ENDIAN := 1234; ORDER_BIG_ENDIAN := 4321; BYTE_ORDER := 1234;
     alignof_voidp := 8; size_t_bits := 64 |}.

Definition gcc_linux_i386 : build :=
  {| def_M_X64 := false; def_M_IX86 := false; def_M_AMD64 := false;
     def_i386 := true; def_x86_64 := false; def_MSC_VER := false;
     def_WIN32 := false; def_GNUC := true; def_NDEBUG := false;
     ORDER_LITTLE_ENDIAN := 1234; ORDER_BIG_ENDIAN := 4321; BYTE_ORDER := 1234;
     alignof_voidp := 4; size_t_bits := 32 |}.

Definition msvc_windows_x64 : build :=
  {| def_M_X64 := true; def_M_IX86 := false; def_M_AMD64 := true;
     def_i386 := false; def_x86_64 := false; def_MSC_VER := true;
     def_WIN32 := true; def_GNUC := false; def_NDEBUG := false;
     ORDER_LITTLE_ENDIAN := 0; ORDER_BIG_ENDIAN := 0; BYTE_ORDER := 0;
     alignof_voidp := 8; size_t_bits := 64 |}.

Definition gcc_linux_aarch64 : build :=
  {| def_M_X64 := false; def_M_IX86 := false; def_M_AMD64 := false;
     def_i386 := false; def_x86_64 := false; def_MSC_VER := false;
     def_WIN32 := false; def_GNUC := true; def_NDEBUG := false;
     ORDER_LITTLE_ENDIAN := 1234; ORDER_BIG_ENDIAN := 4321; BYTE_ORDER := 1234;
     alignof_voidp := 8; size_t_bits := 64 |}.

Definition gcc_linux_s390x : build :=
  {| def_M_X64 := false; def_M_IX86 := false; def_M_AMD64 := false;
     def_i386 := false; def_x86_64 := false; def_MSC_VER := false;
     def_WIN32 := false; def_GNUC := true; def_NDEBUG := false;
     ORDER_LITTLE_ENDIAN := 1234; ORDER_BIG_ENDIAN := 4321; BYTE_ORDER := 4321;
     alignof_voidp := 8; size_t_bits := 64 |}.

(** A processor with AVX2 and without AVX-512. *)
Definition sample_cpu : processor :=
  fun leaf subleaf =>
    if (leaf =? 1) && (subleaf =? 0) then
      {| out_eax := 0x000306C3; out_ebx := 0x02100800;
         out_ecx := 0x7FFAFBFF; out_edx := 0xBFEBFBFF |}
    else if (leaf =? 7) && (subleaf =? 0) then
      {| out_eax := 0; out_ebx := 0x000027AB; out_ecx := 0; out_edx := 0 |}
    else {| out_eax := 0; out_ebx := 0; out_ecx := 0; out_edx := 0 |}.

(** A processor that reports every feature bit. *)
Definition full_cpu : processor :=
  fun _ _ => {| out_eax := 0xFFFFFFFF; out_ebx := 0xFFFFFFFF;
                out_ecx := 0xFFFFFFFF; out_edx := 0xFFFFFFFF |}.

Definition sample_arena : arena :=
  Arena 0x1008 0x100000 ∅ 0x7FFF0000.

Definition sample_world (cpu : processor) (h : arena) : world Z arena :=
  World cpu {| eax := 0; ebx := 0x5EED; ecx := 0; edx := 0; r1 := 0 |} h ∅ [].

(** A 16-byte vector of four floats, and [float]. *)
Definition vfloat4 : cxx_type :=
  {| ty_name := "simd::vfloat4"; ty_sizeof := 16; ty_alignof := 16;
     ty_ctor_throws := false |}.

Definition float : cxx_type :=
  {| ty_name := "float"; ty_sizeof := 4; ty_alignof := 4; ty_ctor_throws := false |}.

(** An over-aligned type whose constructor throws. *)
Definition thrower : cxx_type :=
  {| ty_name := "thrower"; ty_sizeof := 16; ty_alignof := 16; ty_ctor_throws := true |}.

(** ** What the specification says each query reads *)

Inductive reg_name := EAX | EBX | ECX | EDX.

Definition reg_of (r : reg_name) (o : cpuid_out) : Z :=
  match r with
  | EAX => out_eax o | EBX => out_ebx o | ECX => out_ecx o | EDX => out_edx o
  end.

(** Leaf, output register and bit of each query that reads the hardware. *)
Definition designated (f : feature) : option (Z * reg_name * Z) :=
  match f with
  | sse2 => Some (1, EDX, 26)
  | sse3 => Some (1, ECX, 0)
  | ssse3 => Some (1, ECX, 9)
  | fma => Some (1, ECX, 12)
  | sse41 => Some (1, ECX, 19)
  | sse42 => Some (1, ECX, 20)
  | popcnt => Some (1, ECX, 23)
  | avx => Some (1, ECX, 28)
  | f16c => Some (1, ECX, 29)
  | rdrand => Some (1, ECX, 30)
  | avx2 => Some (7, EBX, 5)
  | avx512f => Some (7, EBX, 16)
  | avx512dq => Some (7, EBX, 17)
  | avx512ifma => Some (7, EBX, 21)
  | avx512pf => Some (7, EBX, 26)
  | avx512er => None
  | avx512cd => Some (7, EBX, 28)
  | avx512bw => Some (7, EBX, 30)
  | avx512vl => Some (7, EBX, 31)
  end.

(** The answer of a query as a function of the hardware alone. *)
Definition answer (cfg : build) (cpu : processor) (f : feature) : bool :=
  match designated f with
  | Some (leaf, reg, bit) => x86_family cfg && Z.testbit (reg_of reg (cpu leaf 0)) bit
  | None => false
  end.

(** The array [cpuid] leaves for the caller on an x86 build. *)
Definition cpuid_array (o : cpuid_out) : int_array :=
  [Some (to_int32 (to_uint32 (out_eax o))); Some (to_int32 (to_uint32 (out_ebx o)));
   Some (to_int32 (to_uint32 (out_ecx o))); Some (to_int32 (to_uint32 (out_edx o)))].

(** [cpu_has f] reads bit [bit] of register [reg] of leaf [leaf], sub-leaf
    0, by one [cpuid] instruction; only the registers and the log change. *)
Definition probes {value mem : Type} `{Platform mem} (cfg : build)
    (f : feature) (leaf : Z) (reg : reg_name) (bit : Z) : Prop :=
  forall w : world value mem, exists r,
    cpu_has cfg f w =
    Returns (Z.testbit (reg_of reg (w_cpu w leaf 0)) bit)
            (World (w_cpu w) r (w_mem w) (w_objs w) (w_log w ++ [EvCpuid leaf 0])).

(** An arena with no room for a block of 16 bytes. *)
Definition exhausted_arena : arena :=
  Arena 0x1008 0x1010 ∅ 0x7FFF0000.

(** ** Compiler identification and the macros derived from it *)

(** What the compiler predefines, as far as the header tests it.  A version
    triple stands for the three macros of a compiler ([__GNUC__],
    [__GNUC_MINOR__], [__GNUC_PATCHLEVEL__]; [__clang_major__],
    [__clang_minor__], [__clang_patchlevel__] with [__clang__]); [None] is
    an undefined macro. *)
Record toolchain := {
  tc_GNUC : option (Z * Z * Z);
  tc_clang : option (Z * Z * Z);
  tc_apple_build_version : bool;           (* defined(__apple_build_version__) *)
  tc_INTEL_COMPILER : option Z;            (* __INTEL_COMPILER *)
  tc_INTEL_LLVM_COMPILER : option Z;       (* __INTEL_LLVM_COMPILER *)
  tc_MSC_VER : option Z;                   (* _MSC_VER *)
  tc_cplusplus : Z;                        (* __cplusplus *)
  tc_has_attribute : option (string -> bool);      (* __has_attribute, if provided *)
  tc_has_cpp_attribute : option (string -> bool)   (* __has_cpp_attribute, if provided *)
}.

(** [defined(X)] *)
Definition defined {A} (o : option A) : bool :=
  match o with Some _ => true | None => false end.

(** [10000*major + 100*minor + patchlevel] *)
Definition version_code (v : Z * Z * Z) : Z :=
  let '(major, minor, patch) := v in 10000 * major + 100 * minor + patch.

(** The code of the clang version macros; an identifier that is not defined
    counts as 0 in the preprocessor. *)
Definition clang_version_code (tc : toolchain) : Z :=
  match tc_clang tc with Some v => version_code v | None => 0 end.

Definition OIIO_GNUC_VERSION (tc : toolchain) : Z :=
  match tc_GNUC tc with
  | Some v => if negb (defined (tc_clang tc)) then version_code v else 0
  | None => 0
  end.

Definition OIIO_CLANG_VERSION (tc : toolchain) : Z :=
  if defined (tc_clang tc) && negb (tc_apple_build_version tc)
     && negb (defined (tc_INTEL_LLVM_COMPILER tc))
  then clang_version_code tc else 0.

Definition OIIO_APPLE_CLANG_VERSION (tc : toolchain) : Z :=
  if defined (tc_clang tc) && tc_apple_build_version tc
  then clang_version_code tc else 0.

Definition OIIO_INTEL_CLASSIC_COMPILER_VERSION (tc : toolchain) : Z :=
  match tc_INTEL_COMPILER tc with Some v => v | None => 0 end.

Definition OIIO_INTEL_LLVM_COMPILER (tc : toolchain) : Z :=
  match tc_INTEL_LLVM_COMPILER tc with Some v => v | None => 0 end.

Definition OIIO_INTEL_CLANG_VERSION (tc : toolchain) : Z :=
  if defined (tc_INTEL_LLVM_COMPILER tc) then clang_version_code tc else 0.

Definition OIIO_ANY_CLANG (tc : toolchain) : Z :=
  if defined (tc_clang tc) then 1 else 0.

(** *** Tests for MSVS versions; a test is a preprocessor truth value *)

Definition OIIO_MSVS_VERSION (tc : toolchain) : Z :=
  match tc_MSC_VER tc with Some v => v | None => 0 end.

Definition OIIO_MSVS_AT_LEAST_2013 (tc : toolchain) : bool :=
  match tc_MSC_VER tc with Some v => 1800 <=? v | None => false end.
Definition OIIO_MSVS_BEFORE_2013 (tc : toolchain) : bool :=
  match tc_MSC_VER tc with Some v => v <? 1800 | None => false end.
Definition OIIO_MSVS_AT_LEAST_2015 (tc : toolchain) : bool :=
  match tc_MSC_VER tc with Some v => 1900 <=? v | None => false end.
Definition OIIO_MSVS_BEFORE_2015 (tc : toolchain) : bool :=
  match tc_MSC_VER tc with Some v => v <? 1900 | None => false end.
Definition OIIO_MSVS_AT_LEAST_2017 (tc : toolchain) : bool :=
  match tc_MSC_VER tc with Some v => 1910 <=? v | None => false end.
Definition OIIO_MSVS_BEFORE_2017 (tc : toolchain) : bool :=
  match tc_MSC_VER tc with Some v => v <? 1910 | None => false end.
Definition OIIO_MSVS_AT_LEAST_2019 (tc : toolchain) : bool :=
  match tc_MSC_VER tc with Some v => 1920 <=? v | None => false end.
Definition OIIO_MSVS_BEFORE_2019 (tc : toolchain) : bool :=
  match tc_MSC_VER tc with Some v => v <? 1920 | None => false end.
Definition OIIO_MSVS_AT_LEAST_2022 (tc : toolchain) : bool :=
  match tc_MSC_VER tc with Some v => 1930 <=? v | None => false end.
Definition OIIO_MSVS_BEFORE_2022 (tc : toolchain) : bool :=
  match tc_MSC_VER tc with Some v => v <? 1930 | None => false end.

(** *** The C++ standard *)

(** [OIIO_CPLUSPLUS_VERSION]; [None] where the header has [#error]. *)
Definition OIIO_CPLUSPLUS_VERSION (tc : toolchain) : option Z :=
  if 202001 <=? tc_cplusplus tc then Some 20
  else if (201703 <=? tc_cplusplus tc)
          || match tc_MSC_VER tc with Some v => 1914 <=? v | None => false end
  then Some 17
  else None.

(** The first [#error] the preprocessor reaches, in the order of the
    file. *)
Definition platform_h_error (tc : toolchain) : option string :=
  if defined (tc_clang tc) && tc_apple_build_version tc
     && defined (tc_INTEL_LLVM_COMPILER tc)
  then Some "Not expected for __INTEL_LLVM_COMPILER to be defined with an __apple_build_version__"
  else if OIIO_MSVS_BEFORE_2017 tc
  then Some "This version of OIIO is meant to work only with Visual Studio 2017 or later"
  else match OIIO_CPLUSPLUS_VERSION tc with
       | Some _ => None
       | None => Some "This version of OIIO is meant to work only with C++17 and above"
       end.

(** [__has_attribute(x)] and [__has_cpp_attribute(x)], which the header
    defines as 0 where the compiler has none. *)
Definition has_attribute (tc : toolchain) (x : string) : bool :=
  match tc_has_attribute tc with Some f => f x | None => false end.

Definition has_cpp_attribute (tc : toolchain) (x : string) : bool :=
  match tc_has_cpp_attribute tc with Some f => f x | None => false end.

(** *** Attribute macros: [true] where the macro expands to the attribute,
    [false] where it expands to nothing *)

Definition OIIO_NODISCARD (tc : toolchain) : bool :=
  (17 <=? match OIIO_CPLUSPLUS_VERSION tc with Some v => v | None => 0 end)
  || has_cpp_attribute tc "nodiscard".

Definition OIIO_NO_SANITIZE_ADDRESS (tc : toolchain) : bool :=
  defined (tc_clang tc)
  || ((90000 <? OIIO_GNUC_VERSION tc) && negb (defined (tc_INTEL_COMPILER tc)))
  || has_attribute tc "no_sanitize_address".

Definition OIIO_NO_SANITIZE_UNDEFINED (tc : toolchain) : bool :=
  defined (tc_clang tc)
  || ((90000 <? OIIO_GNUC_VERSION tc) && negb (defined (tc_INTEL_COMPILER tc)))
  || has_attribute tc "no_sanitize".

(** *** Pragma control *)

Inductive pragma :=
| NoPragma                          (* the macro expands to nothing *)
| Pragma_operator (text : string)   (* _Pragma("text") *)
| pragma_keyword (text : string).   (* __pragma(text) *)

Definition OIIO_PRAGMA (tc : toolchain) (UnQuotedPragma : string) : pragma :=
  if defined (tc_MSC_VER tc) then pragma_keyword UnQuotedPragma
  else Pragma_operator UnQuotedPragma.

Definition OIIO_PRAGMA_WARNING_PUSH (tc : toolchain) : pragma :=
  if defined (tc_GNUC tc) then OIIO_PRAGMA tc "GCC diagnostic push"
  else if defined (tc_MSC_VER tc) then pragma_keyword "warning(push)"
  else NoPragma.

Definition OIIO_PRAGMA_WARNING_POP (tc : toolchain) : pragma :=
  if defined (tc_GNUC tc) then OIIO_PRAGMA tc "GCC diagnostic pop"
  else if defined (tc_MSC_VER tc) then pragma_keyword "warning(pop)"
  else NoPragma.

Definition OIIO_GCC_PRAGMA (tc : toolchain) (UnQuotedPragma : string) : pragma :=
  if defined (tc_GNUC tc) then OIIO_PRAGMA tc UnQuotedPragma
  else if defined (tc_MSC_VER tc) then NoPragma
  else NoPragma.

Definition OIIO_CLANG_PRAGMA (tc : toolchain) (UnQuotedPragma : string) : pragma :=
  if defined (tc_GNUC tc) then
    if defined (tc_clang tc) then OIIO_PRAGMA tc UnQuotedPragma else NoPragma
  else if defined (tc_MSC_VER tc) then NoPragma
  else NoPragma.

Definition OIIO_GCC_ONLY_PRAGMA (tc : toolchain) (UnQuotedPragma : string) : pragma :=
  if defined (tc_GNUC tc) then
    if defined (tc_clang tc) then NoPragma else OIIO_PRAGMA tc UnQuotedPragma
  else if defined (tc_MSC_VER tc) then NoPragma
  else NoPragma.

Definition OIIO_INTEL_PRAGMA (tc : toolchain) (UnQuotedPragma : string) : pragma :=
  if defined (tc_GNUC tc) then
    if defined (tc_INTEL_COMPILER tc) then OIIO_PRAGMA tc UnQuotedPragma else NoPragma
  else if defined (tc_MSC_VER tc) then NoPragma
  else NoPragma.

Definition OIIO_INTEL_LLVM_PRAGMA (tc : toolchain) (UnQuotedPragma : string) : pragma :=
  if defined (tc_GNUC tc) then
    if defined (tc_INTEL_LLVM_COMPILER tc) then OIIO_PRAGMA tc UnQuotedPragma else NoPragma
  else if defined (tc_MSC_VER tc) then NoPragma
  else NoPragma.

Definition OIIO_MSVS_PRAGMA (tc : toolchain) (UnQuotedPragma : string) : pragma :=
  if defined (tc_GNUC tc) then NoPragma
  else if defined (tc_MSC_VER tc) then OIIO_PRAGMA tc UnQuotedPragma
  else NoPragma.

(** *** Orders and ranges the properties speak of *)

(** The order of versions: by major, then minor, then patch level. *)
Definition version_lt (a b : Z * Z * Z) : Prop :=
  let '(major1, minor1, patch1) := a in
  let '(major2, minor2, patch2) := b in
  major1 < major2 \/
  (major1 = major2 /\ (minor1 < minor2 \/ (minor1 = minor2 /\ patch1 < patch2))).

(** Minor version and patch level have two decimal digits. *)
Definition two_digits (v : Z * Z * Z) : Prop :=
  let '(major, minor, patch) := v in 0 <= minor < 100 /\ 0 <= patch < 100.

(** [v] is the [int] that holds the low 32 bits of [z]. *)
Definition int_of_reg (v z : Z) : Prop :=
  - 2 ^ 31 <= v < 2 ^ 31 /\ to_uint32 v = to_uint32 z.

(** ** [OIIO_ALLOCATE_STACK_OR_HEAP] *)

Section StackOrHeap.

Context {value mem : Type} `{Platform mem}.
Variable cfg : build.

(** [new T[n]]: the allocation function and the constructors of the
    elements belong to the C++ implementation and to [T]. *)
Variable new_array : cxx_type -> Z -> M (world value mem) Z.

(** [OIIO_ALLOCATE_STACK_OR_HEAP(var, T, size)]: the values the statements
    leave in [var] and in the [std::unique_ptr] [var___heap]. *)
Definition OIIO_ALLOCATE_STACK_OR_HEAP (T : cxx_type) (size : Z)
  : M (world value mem) (Z * Z) :=
  let var___size := to_size_t cfg size in
  let var___heap := nullptr in
  if to_size_t cfg (var___size * ty_sizeof T) <=? Z.shiftl 1 16 then
    let* var := OIIO_ALLOCA cfg T var___size in
    ret (var, var___heap)
  else
    let* p := new_array T var___size in
    ret (p, p).

End StackOrHeap.

(** ** The argument of [OIIO_ALLOCA] as it is written *)

(** The macro puts its second argument between parentheses where it uses
    it, except in [assert(size < (1<<20))], where the tokens of the
    argument stand next to [<].  An argument whose operators all bind at
    least as tightly as [<] is compared as a whole ([Tight], by its value);
    in an argument [a op b] whose operator binds more loosely, [<] takes
    [b] alone, and in [c ? x : y] it takes [y].  The operands [a], [b],
    [c], [x], [y] are tight themselves and given by their values. *)
Inductive size_arg :=
| Tight (size : Z)
| BitAnd (a b : Z)          (* a & b *)
| BitXor (a b : Z)          (* a ^ b *)
| BitOr (a b : Z)           (* a | b *)
| Equal (a b : Z)           (* a == b *)
| NotEqual (a b : Z)        (* a != b *)
| LogicalAnd (a b : Z)      (* a && b *)
| LogicalOr (a b : Z)       (* a || b *)
| Conditional (c x y : Z).  (* c ? x : y *)

(** The conversion of an [int] to [bool]. *)
Definition truth (z : Z) : bool := negb (z =? 0).

(** The value of [(size)]. *)
Definition arg_value (e : size_arg) : Z :=
  match e with
  | Tight size => size
  | BitAnd a b => Z.land a b
  | BitXor a b => Z.lxor a b
  | BitOr a b => Z.lor a b
  | Equal a b => Z.b2z (a =? b)
  | NotEqual a b => Z.b2z (negb (a =? b))
  | LogicalAnd a b => Z.b2z (truth a && truth b)
  | LogicalOr a b => Z.b2z (truth a || truth b)
  | Conditional c x y => if truth c then x else y
  end.

(** The value of [size < (1<<20)] with the tokens of the argument in the
    place of [size]. *)
Definition arg_in_assert (e : size_arg) : bool :=
  match e with
  | Tight size => size <? Z.shiftl 1 20
  | BitAnd a b => truth (Z.land a (Z.b2z (b <? Z.shiftl 1 20)))
  | BitXor a b => truth (Z.lxor a (Z.b2z (b <? Z.shiftl 1 20)))
  | BitOr a b => truth (Z.lor a (Z.b2z (b <? Z.shiftl 1 20)))
  | Equal a b => a =? Z.b2z (b <? Z.shiftl 1 20)
  | NotEqual a b => negb (a =? Z.b2z (b <? Z.shiftl 1 20))
  | LogicalAnd a b => truth a && (b <? Z.shiftl 1 20)
  | LogicalOr a b => truth a || (b <? Z.shiftl 1 20)
  | Conditional c x y => if truth c then truth x else y <? Z.shiftl 1 20
  end.

Section AllocaWritten.

Context {value mem : Type} `{Platform mem}.
Variable cfg : build.

(** [OIIO_ALLOCA(type, size)] at an argument as it is written. *)
Definition OIIO_ALLOCA_written (type : cxx_type) (e : size_arg)
  : M (world value mem) Z :=
  if def_GNUC cfg then
    assert cfg (arg_in_assert e) >>
    if negb (arg_value e =? 0)
    then call_alloca (to_size_t cfg (arg_value e * ty_sizeof type))
    else ret nullptr
  else
    assert cfg (arg_in_assert e) >>
    if negb (arg_value e =? 0)
    then call_alloca (to_size_t cfg (arg_value e * ty_sizeof type))
    else ret nullptr.

End AllocaWritten.

(** Sample toolchains. *)
Definition gcc_13_2 : toolchain :=
  {| tc_GNUC := Some (13, 2, 0); tc_clang := None; tc_apple_build_version := false;
     tc_INTEL_COMPILER := None; tc_INTEL_LLVM_COMPILER := None; tc_MSC_VER := None;
     tc_cplusplus := 201703; tc_has_attribute := Some (fun _ => true);
     tc_has_cpp_attribute := Some (fun _ => true) |}.

Definition gcc_9_0_0_plain : toolchain :=
  {| tc_GNUC := Some (9, 0, 0); tc_clang := None; tc_apple_build_version := false;
     tc_INTEL_COMPILER := None; tc_INTEL_LLVM_COMPILER := None; tc_MSC_VER := None;
     tc_cplusplus := 201703; tc_has_attribute := None;
     tc_has_cpp_attribute := None |}.

Definition apple_clang_15 : toolchain :=
  {| tc_GNUC := Some (4, 2, 1); tc_clang := Some (15, 0, 0); tc_apple_build_version := true;
     tc_INTEL_COMPILER := None; tc_INTEL_LLVM_COMPILER := None; tc_MSC_VER := None;
     tc_cplusplus := 202002; tc_has_attribute := Some (fun _ => true);
     tc_has_cpp_attribute := Some (fun _ => true) |}.

Definition msvc_1912 : toolchain :=
  {| tc_GNUC := None; tc_clang := None; tc_apple_build_version := false;
     tc_INTEL_COMPILER := None; tc_INTEL_LLVM_COMPILER := None; tc_MSC_VER := Some 1912;
     tc_cplusplus := 199711; tc_has_attribute := None;
     tc_has_cpp_attribute := None |}.

Definition msvc_1930 : toolchain :=
  {| tc_GNUC := None; tc_clang := None; tc_apple_build_version := false;
     tc_INTEL_COMPILER := None; tc_INTEL_LLVM_COMPILER := None; tc_MSC_VER := Some 1930;
     tc_cplusplus := 199711; tc_has_attribute := None;
     tc_has_cpp_attribute := None |}.

(** A build without assertions. *)
Definition gcc_linux_x86_64_release : build :=
  {| def_M_X64 := false; def_M_IX86 := false; def_M_AMD64 := false;
     def_i386 := false; def_x86_64 := true; def_MSC_VER := false;
     def_WIN32 := false; def_GNUC := true; def_NDEBUG := true;
     ORDER_LITTLE_ENDIAN := 1234; ORDER_BIG_ENDIAN := 4321; BYTE_ORDER := 1234;
     alignof_voidp := 8; size_t_bits := 64 |}.

(** A stand-in for [new T[n]] in the examples, none of which reaches it. *)
Definition sample_new_array (T : cxx_type) (n : Z) : M (world Z arena) Z :=
  call_aligned_malloc (n * ty_sizeof T) 16.

(** ** Tactics *)

(** Closes a goal whose hypothesis [H] puts a constructor in a list of other
    constructors. *)
Ltac not_listed H :=
  repeat (apply elem_of_cons in H as [H|H]; [discriminate|]);
  now apply elem_of_nil in H.

(** * Properties *)

(** ** Machine integers and masks *)

Lemma to_int32_mod (z : Z) : to_int32 z mod 2 ^ 32 = z mod 2 ^ 32.
Proof.
  unfold to_int32.
  rewrite Zminus_mod_idemp_l.
  f_equal. lia.
Qed.

Lemma to_uint32_idem (z : Z) : to_uint32 (to_uint32 z) = to_uint32 z.
Proof. unfold to_uint32. apply Z.mod_mod. lia. Qed.

Lemma testbit_mod32 (z k : Z) :
  0 <= k < 32 -> Z.testbit (z mod 2 ^ 32) k = Z.testbit z k.
Proof. intros Hk. apply Z.mod_pow2_bits_low. lia. Qed.

(** A register read into an [int] keeps its 32 bits. *)
Lemma testbit_int_of_reg (z k : Z) :
  0 <= k < 32 -> Z.testbit (to_int32 (to_uint32 z)) k = Z.testbit z k.
Proof.
  intros Hk.
  rewrite <- (testbit_mod32 (to_int32 _)) by assumption.
  rewrite to_int32_mod.
  unfold to_uint32. rewrite Z.mod_mod by lia.
  now apply testbit_mod32.
Qed.

(** A mask with one bit tests that bit. *)
Lemma test_mask_pow2 (x k : Z) :
  0 <= k -> test_mask x (2 ^ k) = Z.testbit x k.
Proof.
  intros Hk. unfold test_mask.
  destruct (Z.testbit x k) eqn:Hb.
  - apply negb_true_iff, Z.eqb_neq. intros Hz.
    assert (Hk' : Z.testbit (Z.land x (2 ^ k)) k = true).
    { rewrite Z.land_spec, Hb, Z.pow2_bits_true; auto. }
    rewrite Hz, Z.bits_0 in Hk'. discriminate.
  - apply negb_false_iff, Z.eqb_eq.
    apply Z.bits_inj'. intros n Hn.
    rewrite Z.land_spec, Z.bits_0.
    destruct (Z.eq_dec k n) as [->|Hne].
    + now rewrite Hb.
    + rewrite Z.pow2_bits_false by assumption. apply andb_false_r.
Qed.

Lemma test_mask_shift (z k : Z) :
  0 <= k < 32 ->
  test_mask (to_int32 (to_uint32 z)) (Z.shiftl 1 k) = Z.testbit z k.
Proof.
  intros Hk.
  rewrite Z.shiftl_1_l, test_mask_pow2 by lia.
  now apply testbit_int_of_reg.
Qed.

Lemma test_mask_sign (z : Z) :
  test_mask (to_uint32 (to_int32 (to_uint32 z))) 0x80000000 = Z.testbit z 31.
Proof.
  change 0x80000000 with (2 ^ 31).
  rewrite test_mask_pow2 by lia.
  unfold to_uint32 at 1. rewrite to_int32_mod.
  fold (to_uint32 (to_uint32 z)). rewrite to_uint32_idem.
  unfold to_uint32. apply testbit_mod32. lia.
Qed.

(** ** [cpuid] *)

Section CpuidFacts.

Context {value mem : Type} `{Platform mem}.
Variable cfg : build.

Abbreviation world := (world value mem).

(** On an x86 build [cpuid] executes the instruction once, with the leaf in
    [eax] and the sub-leaf in [ecx], and stores the four registers; only the
    registers and the log change. *)
Lemma cpuid_x86 (infoType extra : Z) (w : world) :
  x86_family cfg = true ->
  exists r,
    cpuid cfg int4 infoType extra w =
    Returns (cpuid_array (w_cpu w (to_uint32 infoType) (to_uint32 extra)))
            (World (w_cpu w) r (w_mem w) (w_objs w)
                   (w_log w ++ [EvCpuid (to_uint32 infoType) (to_uint32 extra)])).
Proof.
  intros Hx. unfold cpuid. rewrite Hx.
  destruct (def_MSC_VER cfg); [|destruct (def_x86_64 cfg)];
    eexists; reflexivity.
Qed.

(** The 32-bit variant gives [ebx] back as it found it. *)
Lemma cpuid_i386_keeps_ebx (infoType extra : Z) (w : world) :
  x86_family cfg = true -> def_MSC_VER cfg = false -> def_x86_64 cfg = false ->
  exists a w',
    cpuid cfg int4 infoType extra w = Returns a w' /\ ebx (w_regs w') = ebx (w_regs w).
Proof.
  intros Hx Hm H64. unfold cpuid. rewrite Hx, Hm, H64.
  eexists _, _. split; reflexivity.
Qed.

(** Elsewhere [cpuid] stores four zeros and does nothing else. *)
Lemma cpuid_other (info : int_array) (infoType extra : Z) (w : world) :
  x86_family cfg = false -> length info = 4%nat ->
  cpuid cfg info infoType extra w = Returns [Some 0; Some 0; Some 0; Some 0] w.
Proof.
  intros Hx Hlen. unfold cpuid. rewrite Hx.
  destruct info as [|a [|b [|c [|d [|e info]]]]]; try discriminate.
  reflexivity.
Qed.

End CpuidFacts.

(** ** The feature queries *)


Section Queries.

Context {value mem : Type} `{Platform mem}.
Variable cfg : build.

Abbreviation world := (world value mem).
Abbreviation reads := (probes (value:=value) (mem:=mem) cfg).

Lemma designated_bit (f : feature) (leaf : Z) (reg : reg_name) (bit : Z) :
  designated f = Some (leaf, reg, bit) -> 0 <= bit < 32.
Proof. destruct f; try discriminate; intros [= <- <- <-]; lia. Qed.

Lemma designated_probes (f : feature) (leaf : Z) (reg : reg_name) (bit : Z) :
  x86_family cfg = true ->
  designated f = Some (leaf, reg, bit) ->
  reads f leaf reg bit.
Proof.
  intros Hx Hd w.
  assert (Hl : leaf = 1 \/ leaf = 7) by (destruct f; try discriminate; injection Hd as <- <- <-; auto).
  destruct (cpuid_x86 cfg leaf 0 w Hx) as [r Hr].
  replace (to_uint32 leaf) with leaf in Hr by (destruct Hl as [-> | ->]; reflexivity).
  change (to_uint32 0) with 0 in Hr.
  exists r.
  destruct f; try discriminate; injection Hd as <- <- <-;
    unfold cpu_has, cpu_has_sse2, cpu_has_sse3, cpu_has_ssse3, cpu_has_fma,
      cpu_has_sse41, cpu_has_sse42, cpu_has_popcnt, cpu_has_avx, cpu_has_f16c,
      cpu_has_rdrand, cpu_has_avx2, cpu_has_avx512f, cpu_has_avx512dq,
      cpu_has_avx512ifma, cpu_has_avx512pf, cpu_has_avx512cd, cpu_has_avx512bw,
      cpu_has_avx512vl, bind;
    rewrite Hr; cbn [load cpuid_array lookup list_lookup ret reg_of];
    f_equal;
    first [ apply test_mask_shift; lia | apply test_mask_sign ].
Qed.

(** Off x86 every query finds the zeros [cpuid] stored. *)
Lemma cpu_has_other (f : feature) (w : world) :
  x86_family cfg = false -> cpu_has cfg f w = Returns false w.
Proof.
  intros Hx.
  destruct f;
    unfold cpu_has, cpu_has_sse2, cpu_has_sse3, cpu_has_ssse3, cpu_has_fma,
      cpu_has_sse41, cpu_has_sse42, cpu_has_popcnt, cpu_has_avx, cpu_has_f16c,
      cpu_has_rdrand, cpu_has_avx2, cpu_has_avx512f, cpu_has_avx512dq,
      cpu_has_avx512ifma, cpu_has_avx512pf, cpu_has_avx512er, cpu_has_avx512cd,
      cpu_has_avx512bw, cpu_has_avx512vl, bind;
    try rewrite (cpuid_other cfg int4 _ _ w Hx eq_refl);
    reflexivity.
Qed.

(** Every query returns, its value is [answer] of the hardware, and it
    leaves hardware, memory and objects as they were. *)
Lemma cpu_has_run (f : feature) (w : world) :
  exists r l,
    cpu_has cfg f w =
    Returns (answer cfg (w_cpu w) f) (World (w_cpu w) r (w_mem w) (w_objs w) l).
Proof.
  unfold answer.
  destruct (x86_family cfg) eqn:Hx.
  - destruct (designated f) as [[[leaf reg] bit]|] eqn:Hd.
    + destruct (designated_probes f leaf reg bit Hx Hd w) as [r Hr].
      exists r, (w_log w ++ [EvCpuid leaf 0]). exact Hr.
    + destruct f; try discriminate.
      exists (w_regs w), (w_log w). destruct w; reflexivity.
  - exists (w_regs w), (w_log w).
    rewrite (cpu_has_other f w Hx).
    destruct w, (designated f) as [[[leaf reg] bit]|]; reflexivity.
Qed.

Lemma cpu_has_all_run (fs : list feature) (w : world) :
  exists bs w', cpu_has_all cfg fs w = Returns bs w' /\ w_cpu w' = w_cpu w.
Proof.
  revert w. induction fs as [|f fs IH]; intros w.
  - exists [], w. split; reflexivity.
  - destruct (cpu_has_run f w) as (r & l & Hf).
    destruct (IH (World (w_cpu w) r (w_mem w) (w_objs w) l)) as (bs & w' & Hfs & Hcpu).
    exists (answer cfg (w_cpu w) f :: bs), w'.
    split; [|exact Hcpu].
    cbn [cpu_has_all]. unfold bind at 1. rewrite Hf.
    unfold bind at 1. rewrite Hfs. reflexivity.
Qed.

(** C1: on an x86 or x86-64 build every feature query executes [cpuid] with
    leaf 1, sub-leaf 0 (sse2, sse3, ssse3, fma, sse41, sse42, popcnt, avx,
    f16c, rdrand) or with leaf 7, sub-leaf 0 (avx2 and the AVX-512 queries),
    and returns true exactly when one bit of the output is set: bit 26 of
    [edx] for sse2, a bit of [ecx] for the other leaf-1 queries, a bit of
    [ebx] for the leaf-7 queries, bit 31 for avx512vl. *)
Theorem C1_queries_read_one_bit :
  x86_family cfg = true ->
  reads sse2 1 EDX 26 /\
  (forall f, f ∈ [sse3; ssse3; fma; sse41; sse42; popcnt; avx; f16c; rdrand] ->
     exists bit, 0 <= bit < 32 /\ reads f 1 ECX bit) /\
  (forall f, f ∈ [avx2; avx512f; avx512dq; avx512ifma; avx512pf; avx512cd; avx512bw] ->
     exists bit, 0 <= bit < 32 /\ reads f 7 EBX bit) /\
  reads avx512vl 7 EBX 31.
Proof.
  intros Hx.
  assert (Hall : forall f leaf reg bit,
             designated f = Some (leaf, reg, bit) ->
             0 <= bit < 32 /\ reads f leaf reg bit).
  { intros f leaf reg bit Hd. split.
    - exact (designated_bit f leaf reg bit Hd).
    - exact (designated_probes f leaf reg bit Hx Hd). }
  repeat split.
  - apply (Hall sse2). reflexivity.
  - intros f Hf.
    destruct f; try (exfalso; not_listed Hf);
      eexists; apply Hall; reflexivity.
  - intros f Hf.
    destruct f; try (exfalso; not_listed Hf);
      eexists; apply Hall; reflexivity.
  - apply (Hall avx512vl). reflexivity.
Qed.

(** C2: off the x86 family [cpuid] stores zero in the four slots whatever
    the leaf and sub-leaf, without any other effect, and every feature query
    returns false; [cpu_has_avx512er] returns false on every build without
    executing [cpuid]. *)
Theorem C2_other_architectures_report_nothing :
  (x86_family cfg = false ->
   (forall (info : int_array) (infoType extra : Z) (w : world),
      length info = 4%nat ->
      cpuid cfg info infoType extra w = Returns [Some 0; Some 0; Some 0; Some 0] w) /\
   (forall (f : feature) (w : world), cpu_has cfg f w = Returns false w)) /\
  (forall w : world,
     cpu_has_avx512er w = Returns false w /\ cpu_has cfg avx512er w = Returns false w).
Proof.
  split.
  - intros Hx. split.
    + intros info infoType extra w Hlen. now apply cpuid_other.
    + intros f w. now apply cpu_has_other.
  - intros w. split; reflexivity.
Qed.

(** C7: a feature query always returns, and what it returns is a function
    of the hardware alone: two worlds with the same hardware give the same
    answer, whatever queries ran before leave the answer as it is, and two
    calls in a row return the same boolean. *)
Theorem C7_queries_are_deterministic (f : feature) :
  (forall w : world, exists w',
     cpu_has cfg f w = Returns (answer cfg (w_cpu w) f) w' /\ w_cpu w' = w_cpu w) /\
  (forall w1 w2 : world,
     w_cpu w1 = w_cpu w2 -> result (cpu_has cfg f w1) = result (cpu_has cfg f w2)) /\
  (forall (before : list feature) (w : world),
     result ((cpu_has_all cfg before >> cpu_has cfg f) w) = result (cpu_has cfg f w)) /\
  (forall w : world, exists b,
     result ((let* b1 := cpu_has cfg f in let* b2 := cpu_has cfg f in ret (b1, b2)) w)
     = Some (b, b)).
Proof.
  repeat split.
  - intros w. destruct (cpu_has_run f w) as (r & l & Hf).
    eexists. split; [exact Hf | reflexivity].
  - intros w1 w2 Hcpu.
    destruct (cpu_has_run f w1) as (r1 & l1 & ->).
    destruct (cpu_has_run f w2) as (r2 & l2 & ->).
    cbn [result]. now rewrite Hcpu.
  - intros before w.
    destruct (cpu_has_all_run before w) as (bs & w' & Hall & Hcpu).
    unfold bind. rewrite Hall.
    destruct (cpu_has_run f w') as (r1 & l1 & ->).
    destruct (cpu_has_run f w) as (r2 & l2 & ->).
    cbn [result]. now rewrite Hcpu.
  - intros w. exists (answer cfg (w_cpu w) f).
    destruct (cpu_has_run f w) as (r & l & Hf).
    unfold bind at 1. rewrite Hf.
    destruct (cpu_has_run f (World (w_cpu w) r (w_mem w) (w_objs w) l)) as (r' & l' & Hf').
    unfold bind at 1. rewrite Hf'. reflexivity.
Qed.

End Queries.

(** ** [aligned_new] and [aligned_delete] *)

Section Aligned.

Context {value mem : Type} `{Platform mem}.
Variable cfg : build.

Abbreviation world := (world value mem).

(** The instantiation compiles exactly for the types the static assertion
    lets through, and then it is the function below it. *)
Lemma aligned_new_compiles (T : cxx_type) (f : list value -> M world Z) :
  aligned_new cfg T = Compiles f ->
  ty_alignof T > alignof_voidp cfg /\
  f = (fun args =>
         let* ptr := call_aligned_malloc (ty_sizeof T) (ty_alignof T) in
         if negb (ptr =? nullptr) then placement_new T ptr args else ret nullptr).
Proof.
  unfold aligned_new.
  destruct (ty_alignof T >? alignof_voidp cfg) eqn:Hgt; [|discriminate].
  intros [= <-]. split; [lia | reflexivity].
Qed.

(** C3: [aligned_new<T>(args...)] first asks [aligned_malloc] for
    [sizeof(T)] bytes at alignment [alignof(T)].  If the answer is null it
    returns null and no constructor runs; otherwise it runs the constructor
    of [T] once at that address on the arguments it was given, and when the
    constructor returns it returns the address of the object; when the
    constructor exits by an exception, the exception leaves [aligned_new]
    and no pointer is returned. *)
Theorem C3_aligned_new_allocates_then_constructs
    (T : cxx_type) (f : list value -> M world Z) (args : list value) (w : world)
    (p : Z) (m : mem) :
  aligned_new cfg T = Compiles f ->
  aligned_malloc (ty_sizeof T) (ty_alignof T) (w_mem w) = (p, m) ->
  (p = nullptr ->
   f args w =
   Returns nullptr
     (World (w_cpu w) (w_regs w) m (w_objs w)
        (w_log w ++ [EvAlignedMalloc (ty_sizeof T) (ty_alignof T) nullptr]))) /\
  (p <> nullptr -> ty_ctor_throws T = false ->
   f args w =
   Returns p
     (World (w_cpu w) (w_regs w) m (<[p := (ty_name T, args)]> (w_objs w))
        (w_log w ++ [EvAlignedMalloc (ty_sizeof T) (ty_alignof T) p;
                     EvConstruct (ty_name T) p args]))) /\
  (p <> nullptr -> ty_ctor_throws T = true ->
   f args w =
   Throws
     (World (w_cpu w) (w_regs w) m (w_objs w)
        (w_log w ++ [EvAlignedMalloc (ty_sizeof T) (ty_alignof T) p;
                     EvConstruct (ty_name T) p args]))).
Proof.
  intros Hf Hm.
  apply aligned_new_compiles in Hf as [_ ->].
  unfold bind, call_aligned_malloc. rewrite Hm.
  split; [|split].
  - intros ->. reflexivity.
  - intros Hp Hc. apply Z.eqb_neq in Hp. rewrite Hp.
    unfold placement_new. rewrite Hc. cbn. rewrite <- app_assoc. reflexivity.
  - intros Hp Hc. apply Z.eqb_neq in Hp. rewrite Hp.
    unfold placement_new. rewrite Hc. cbn. rewrite <- app_assoc. reflexivity.
Qed.



(** C6: instantiating [aligned_new<T>] fails on the static assertion exactly
    when [alignof(T) <= alignof(void* )], and compiles exactly when
    [alignof(T) > alignof(void* )]; an alignment equal to that of [void*] is
    rejected. *)
Theorem C6_static_assert_guards_over_alignment (T : cxx_type) :
  ((exists msg, @aligned_new value mem _ cfg T = StaticAssertFails msg) <->
   ty_alignof T <= alignof_voidp cfg) /\
  ((exists f, @aligned_new value mem _ cfg T = Compiles f) <->
   ty_alignof T > alignof_voidp cfg) /\
  (ty_alignof T = alignof_voidp cfg ->
   exists msg, @aligned_new value mem _ cfg T = StaticAssertFails msg).
Proof.
  unfold aligned_new.
  destruct (ty_alignof T >? alignof_voidp cfg) eqn:Hgt.
  - assert (ty_alignof T > alignof_voidp cfg) by lia.
    repeat split.
    + intros [msg [=]].
    + lia.
    + intros _. assumption.
    + intros _. eexists. reflexivity.
    + lia.
  - assert (ty_alignof T <= alignof_voidp cfg) by lia.
    repeat split.
    + intros _. assumption.
    + intros _. eexists. reflexivity.
    + intros [f [=]].
    + lia.
    + intros _. eexists. reflexivity.
Qed.

End Aligned.

(** ** Endianness *)

(** C9: [littleendian()] is true exactly when [endian::native] equals
    [endian::little], [bigendian()] exactly when it equals [endian::big];
    the two enumerators being distinct (they are 0 and 1 on Windows, and the
    two byte-order constants of the compiler elsewhere), at most one of the
    functions returns true; on Windows [littleendian()] is true and
    [bigendian()] is false.  Both are functions of the build alone: they
    take no argument and no state. *)
Theorem C9_endian_tests (cfg : build) :
  (def_WIN32 cfg = false -> ORDER_LITTLE_ENDIAN cfg <> ORDER_BIG_ENDIAN cfg) ->
  (littleendian cfg = true <-> endian_value cfg native = endian_value cfg little) /\
  (bigendian cfg = true <-> endian_value cfg native = endian_value cfg big) /\
  ~ (littleendian cfg = true /\ bigendian cfg = true) /\
  (def_WIN32 cfg = true -> littleendian cfg = true /\ bigendian cfg = false).
Proof.
  intros Hne.
  unfold littleendian, bigendian.
  repeat split.
  - apply Z.eqb_eq.
  - apply Z.eqb_eq.
  - apply Z.eqb_eq.
  - apply Z.eqb_eq.
  - intros [Hl Hb]. apply Z.eqb_eq in Hl, Hb.
    unfold endian_value in Hl, Hb.
    destruct (def_WIN32 cfg); [discriminate|].
    apply Hne; [reflexivity | congruence].
  - unfold endian_value. rewrite H. reflexivity.
  - unfold endian_value. rewrite H. reflexivity.
Qed.

(** ** [OIIO_ALLOCA] *)

Section Alloca.

Context {value mem : Type} `{Platform mem}.
Variable cfg : build.

Abbreviation world := (world value mem).

(** A size of 0 gives null and the primitive is not called. *)
Lemma OIIO_ALLOCA_zero (type : cxx_type) (w : world) :
  OIIO_ALLOCA cfg type 0 w = Returns nullptr w.
Proof.
  unfold OIIO_ALLOCA, assert, bind.
  destruct (def_GNUC cfg), (def_NDEBUG cfg); reflexivity.
Qed.

(** With assertions on, a size of [1 << 20] or more stops the program before
    the primitive is called. *)
Lemma OIIO_ALLOCA_asserts (type : cxx_type) (size : Z) (w : world) :
  def_NDEBUG cfg = false -> 2 ^ 20 <= size ->
  OIIO_ALLOCA cfg type size w = AssertFails w.
Proof.
  intros Hd Hs.
  unfold OIIO_ALLOCA, assert, bind. rewrite Hd.
  change (Z.shiftl 1 20) with (2 ^ 20).
  destruct (Z.ltb_spec size (2 ^ 20)); [lia|].
  destruct (def_GNUC cfg); reflexivity.
Qed.

(** A size that is not 0 and is below [1 << 20] reaches the primitive with
    [size * sizeof(type)] bytes. *)
Lemma OIIO_ALLOCA_calls (type : cxx_type) (size : Z) (w : world) :
  size <> 0 -> size < 2 ^ 20 ->
  OIIO_ALLOCA cfg type size w = call_alloca (to_size_t cfg (size * ty_sizeof type)) w.
Proof.
  intros Hz Hs.
  unfold OIIO_ALLOCA, assert, bind.
  change (Z.shiftl 1 20) with (2 ^ 20).
  destruct (Z.ltb_spec size (2 ^ 20)); [|lia].
  apply Z.eqb_neq in Hz. rewrite Hz.
  destruct (def_GNUC cfg), (def_NDEBUG cfg); reflexivity.
Qed.

End Alloca.

(** C10: the assertion of [OIIO_ALLOCA] compares the number of elements, not
    the number of bytes, with [1 << 20]: in a build with assertions on,
    [OIIO_ALLOCA(float, 1 << 19)] passes the assertion and takes 2 MB from
    the stack. *)
Theorem C10_two_megabytes_pass_the_assertion :
  def_NDEBUG gcc_linux_x86_64 = false /\
  exists p w',
    OIIO_ALLOCA gcc_linux_x86_64 float (Z.shiftl 1 19)
      (sample_world sample_cpu sample_arena) = Returns p w' /\
    w_log w' = [EvAlloca (2 * 2 ^ 20) p].
Proof.
  split; [reflexivity|].
  eexists _, _. split; reflexivity.
Qed.

(** ** The allocator of the specification *)

Lemma is_pow2_pow (k : Z) : 0 <= k -> is_pow2 (2 ^ k) = true.
Proof.
  intros Hk. unfold is_pow2.
  apply andb_true_intro. split.
  - apply Z.ltb_lt. lia.
  - apply Z.eqb_eq.
    replace (2 ^ k - 1) with (Z.ones k) by (rewrite Z.ones_equiv; lia).
    rewrite Z.land_ones by assumption.
    apply Z_mod_same_full.
Qed.

Lemma is_pow2_inv (n : Z) : is_pow2 n = true -> exists k, 0 <= k /\ n = 2 ^ k.
Proof.
  unfold is_pow2. intros Hn.
  apply andb_prop in Hn as [Hpos Hland].
  apply Z.ltb_lt in Hpos. apply Z.eqb_eq in Hland.
  exists (Z.log2 n). split; [apply Z.log2_nonneg|].
  destruct (Z.log2_spec n Hpos) as [Hlo Hhi].
  destruct (Z.eq_dec n (2 ^ Z.log2 n)) as [|Hne]; [assumption|exfalso].
  assert (Hk : Z.log2 (n - 1) = Z.log2 n).
  { apply Z.log2_unique; [apply Z.log2_nonneg | lia]. }
  assert (Hb : Z.testbit (Z.land n (n - 1)) (Z.log2 n) = true).
  { rewrite Z.land_spec, Z.bit_log2 by assumption.
    rewrite <- Hk. rewrite Z.bit_log2; [reflexivity|].
    assert (0 < 2 ^ Z.log2 n) by (apply Z.pow_pos_nonneg; [lia | apply Z.log2_nonneg]).
    lia. }
  rewrite Hland, Z.bits_0 in Hb. discriminate.
Qed.

Lemma align_up_pow2 (a k : Z) :
  0 <= k -> align_up a (2 ^ k) = (a + (2 ^ k - 1)) / 2 ^ k * 2 ^ k.
Proof.
  intros Hk. unfold align_up.
  replace (2 ^ k - 1) with (Z.ones k) by (rewrite Z.ones_equiv; lia).
  rewrite <- Z.ldiff_land, Z.ldiff_ones_r by assumption.
  rewrite Z.shiftl_mul_pow2, Z.shiftr_div_pow2 by assumption.
  reflexivity.
Qed.

Lemma align_up_spec (a k : Z) :
  0 <= k ->
  a <= align_up a (2 ^ k) < a + 2 ^ k /\ align_up a (2 ^ k) mod 2 ^ k = 0.
Proof.
  intros Hk. rewrite align_up_pow2 by assumption.
  assert (Hp : 0 < 2 ^ k) by (apply Z.pow_pos_nonneg; lia).
  split.
  - pose proof (Z.div_mod (a + (2 ^ k - 1)) (2 ^ k) ltac:(lia)) as Hdm.
    pose proof (Z.mod_pos_bound (a + (2 ^ k - 1)) (2 ^ k) Hp) as Hb.
    lia.
  - apply Z_mod_mult.
Qed.

Lemma sample_arena_ok : arena_ok sample_arena.
Proof.
  split; cbn; [lia | lia |].
  intros a s Hl. rewrite lookup_empty in Hl. discriminate.
Qed.

Lemma arena_fresh (h : arena) (a : Z) :
  arena_ok h -> a_next h <= a -> a_blocks h !! a = None.
Proof.
  intros Hok Ha.
  destruct (a_blocks h !! a) as [s|] eqn:Hl; [|reflexivity].
  destruct (ok_blocks h Hok a s Hl) as (_ & Hs & Hle). lia.
Qed.

(** What a successful request changes. *)
Lemma arena_malloc_success (h : arena) (size k : Z) :
  0 <= k -> 0 < size -> align_up (a_next h) (2 ^ k) + size <= a_end h ->
  arena_aligned_malloc size (2 ^ k) h =
  (align_up (a_next h) (2 ^ k),
   Arena (align_up (a_next h) (2 ^ k) + size) (a_end h)
         (<[align_up (a_next h) (2 ^ k) := size]> (a_blocks h)) (a_sp h)).
Proof.
  intros Hk Hs Hfit. unfold arena_aligned_malloc.
  rewrite is_pow2_pow by assumption.
  destruct (Z.ltb_spec 0 size); [|lia].
  destruct (Z.leb_spec (align_up (a_next h) (2 ^ k) + size) (a_end h)); [|lia].
  reflexivity.
Qed.

Lemma arena_malloc_failure (h : arena) (size k : Z) :
  0 <= k -> a_end h < align_up (a_next h) (2 ^ k) + size ->
  arena_aligned_malloc size (2 ^ k) h = (nullptr, h).
Proof.
  intros Hk Hfit. unfold arena_aligned_malloc.
  rewrite is_pow2_pow by assumption.
  destruct (Z.leb_spec (align_up (a_next h) (2 ^ k) + size) (a_end h)); [lia|].
  rewrite andb_false_r. reflexivity.
Qed.

Lemma arena_malloc_ok (h : arena) (size align : Z) :
  arena_ok h -> arena_ok (arena_aligned_malloc size align h).2.
Proof.
  intros Hok. unfold arena_aligned_malloc.
  destruct (is_pow2 align) eqn:Hp; [|exact Hok].
  destruct (is_pow2_inv align Hp) as (k & Hk & ->).
  destruct (align_up_spec (a_next h) k Hk) as [[Hlo _] _].
  destruct (Z.ltb_spec 0 size); [|exact Hok].
  destruct (Z.leb_spec (align_up (a_next h) (2 ^ k) + size) (a_end h)); [|exact Hok].
  pose proof (ok_next h Hok).
  split; cbn; [lia | lia |].
  intros a s Hl. apply lookup_insert_Some in Hl as [[<- <-] | [_ Hl]].
  - lia.
  - destruct (ok_blocks h Hok a s Hl) as (? & ? & ?). lia.
Qed.

Lemma arena_free_ok (h : arena) (ptr : Z) :
  arena_ok h -> arena_ok (arena_aligned_free ptr h).
Proof.
  intros Hok. unfold arena_aligned_free.
  destruct (ptr =? nullptr); [exact Hok|].
  split; cbn; [apply Hok | apply Hok |].
  intros a s Hl. apply lookup_delete_Some in Hl as [_ Hl].
  exact (ok_blocks h Hok a s Hl).
Qed.

(** Freeing the block a request returned gives the live blocks of
    before. *)
Lemma arena_malloc_free_blocks (h h' : arena) (size align p : Z) :
  arena_ok h ->
  arena_aligned_malloc size align h = (p, h') ->
  a_blocks (arena_aligned_free p h') = a_blocks h.
Proof.
  intros Hok. unfold arena_aligned_malloc, arena_aligned_free.
  destruct (is_pow2 align) eqn:Hp.
  - destruct (is_pow2_inv align Hp) as (k & Hk & ->).
    destruct (align_up_spec (a_next h) k Hk) as [[Hlo _] _].
    pose proof (ok_next h Hok).
    destruct ((0 <? size) && (align_up (a_next h) (2 ^ k) + size <=? a_end h)).
    + intros [= <- <-].
      destruct (Z.eqb_spec (align_up (a_next h) (2 ^ k)) nullptr) as [He|_].
      * unfold nullptr in He. lia.
      * cbn. apply delete_insert_id. now apply arena_fresh.
    + intros [= <- <-]. reflexivity.
  - intros [= <- <-]. reflexivity.
Qed.

Section SpecAllocator.

Context {value : Type}.

(** C8: for an alignment that is a power of two and a size above 0,
    [aligned_malloc(size, align)] returns null, or an address that is not
    null, is a multiple of [align] and heads a block of at least [size]
    bytes of its own; the call returns in either case, so a failure shows
    in the null result only. *)
Theorem C8_aligned_malloc_null_or_aligned_block (h : arena) (size k : Z) :
  arena_ok h -> 0 <= k -> 0 < size ->
  exists a h',
    aligned_malloc size (2 ^ k) h = (a, h') /\
    (a = nullptr /\ h' = h \/
     a <> nullptr /\ a mod 2 ^ k = 0 /\ heads_block h' a size /\ arena_ok h') /\
    forall w : world value arena,
      w_mem w = h ->
      exists w', call_aligned_malloc size (2 ^ k) w = Returns a w' /\ w_mem w' = h'.
Proof.
  intros Hok Hk Hs.
  destruct (aligned_malloc size (2 ^ k) h) as [a h'] eqn:Hm.
  exists a, h'. split; [reflexivity|]. split.
  - cbn in Hm.
    destruct (align_up_spec (a_next h) k Hk) as [[Hlo _] Hmod].
    pose proof (ok_next h Hok) as Hn.
    destruct (Z.le_gt_cases (align_up (a_next h) (2 ^ k) + size) (a_end h)) as [Hfit|Hfit].
    + rewrite arena_malloc_success in Hm by assumption.
      injection Hm as <- <-. right.
      split; [unfold nullptr; lia|].
      split; [exact Hmod|].
      split.
      * exists size. cbn. rewrite lookup_insert_eq.
        split; [reflexivity|]. split; [lia|]. split; [lia|].
        intros a' s' Hne Hl. rewrite lookup_insert_ne in Hl by congruence.
        destruct (ok_blocks h Hok a' s' Hl) as (_ & _ & Hle). lia.
      * pose proof (arena_malloc_ok h size (2 ^ k) Hok) as Hok'.
        rewrite arena_malloc_success in Hok' by assumption. exact Hok'.
    + rewrite arena_malloc_failure in Hm by assumption.
      injection Hm as <- <-. left. split; reflexivity.
  - intros w Hw. unfold call_aligned_malloc. rewrite Hw, Hm.
    eexists. split; reflexivity.
Qed.

End SpecAllocator.

(** On the allocator of the specification, construction by a constructor
    that returns, followed by deletion, leaves the live blocks as they
    were. *)
Lemma arena_new_then_delete_no_leak {value : Type} (cfg : build) (T : cxx_type)
    (f : list value -> M (world value arena) Z) (args : list value)
    (w : world value arena) :
  arena_ok (w_mem w) ->
  ty_ctor_throws T = false ->
  aligned_new cfg T = Compiles f ->
  exists w',
    (let* t := f args in aligned_delete T t) w = Returns tt w' /\
    a_blocks (w_mem w') = a_blocks (w_mem w) /\
    arena_ok (w_mem w').
Proof.
  intros Hok Hc Hf.
  apply aligned_new_compiles in Hf as [_ ->].
  destruct (arena_aligned_malloc (ty_sizeof T) (ty_alignof T) (w_mem w)) as [p m] eqn:Hm.
  pose proof (arena_malloc_ok (w_mem w) (ty_sizeof T) (ty_alignof T) Hok) as Hok'.
  pose proof (arena_malloc_free_blocks _ _ _ _ _ Hok Hm) as Hblocks.
  rewrite Hm in Hok'. cbn [snd] in Hok'.
  unfold bind at 1. unfold bind at 1. unfold call_aligned_malloc.
  cbn [aligned_malloc arena_platform]. rewrite Hm.
  destruct (Z.eqb_spec p nullptr) as [->|Hp].
  - eexists. split; [reflexivity|]. split; [exact Hblocks | exact Hok'].
  - unfold placement_new, aligned_delete. rewrite Hc. cbn [negb].
    apply Z.eqb_neq in Hp. rewrite Hp.
    eexists. split; [reflexivity|]. cbn.
    split; [exact Hblocks | now apply arena_free_ok].
Qed.

(** ** The properties at concrete builds, processors and types *)

Example cpu_has_avx2_sample :
  result (cpu_has gcc_linux_x86_64 avx2 (sample_world sample_cpu sample_arena)) = Some true.
Proof. reflexivity. Qed.

Example cpu_has_avx512f_sample :
  result (cpu_has gcc_linux_x86_64 avx512f (sample_world sample_cpu sample_arena)) = Some false.
Proof. reflexivity. Qed.

Example cpu_has_avx512vl_full_i386 :
  result (cpu_has gcc_linux_i386 avx512vl (sample_world full_cpu sample_arena)) = Some true.
Proof. reflexivity. Qed.

Example cpu_has_avx512er_full_msvc :
  result (cpu_has msvc_windows_x64 avx512er (sample_world full_cpu sample_arena)) = Some false.
Proof. reflexivity. Qed.

Example cpu_has_sse2_full_aarch64 :
  result (cpu_has gcc_linux_aarch64 sse2 (sample_world full_cpu sample_arena)) = Some false.
Proof. reflexivity. Qed.

Example aligned_new_float_rejected :
  exists msg, @aligned_new Z arena _ gcc_linux_x86_64 float = StaticAssertFails msg.
Proof. eexists. reflexivity. Qed.

Example aligned_malloc_exhausted :
  aligned_malloc 16 16 exhausted_arena = (nullptr, exhausted_arena).
Proof. reflexivity. Qed.

Example OIIO_ALLOCA_one_megabyte_of_char_asserts :
  OIIO_ALLOCA gcc_linux_x86_64 {| ty_name := "char"; ty_sizeof := 1; ty_alignof := 1; ty_ctor_throws := false |}
    (Z.shiftl 1 20) (sample_world sample_cpu sample_arena)
  = AssertFails (sample_world sample_cpu sample_arena).
Proof. reflexivity. Qed.

Lemma C1_queries_read_one_bit_witness :
  x86_family gcc_linux_x86_64 = true /\
  @probes Z arena _ gcc_linux_x86_64 sse2 1 EDX 26 /\
  @probes Z arena _ gcc_linux_x86_64 avx512vl 7 EBX 31.
Proof.
  split; [reflexivity|].
  pose proof (C1_queries_read_one_bit (value:=Z) (mem:=arena) gcc_linux_x86_64 eq_refl)
    as (Hsse2 & _ & _ & Hvl).
  split; assumption.
Defined.

Lemma C2_other_architectures_report_nothing_witness :
  x86_family gcc_linux_aarch64 = false /\
  forall f, cpu_has gcc_linux_aarch64 f (sample_world full_cpu sample_arena)
            = Returns false (sample_world full_cpu sample_arena).
Proof.
  split; [reflexivity|].
  intros f.
  exact (proj2 (proj1 (C2_other_architectures_report_nothing (value:=Z) (mem:=arena)
                         gcc_linux_aarch64) eq_refl) f _).
Defined.

Lemma C3_aligned_new_allocates_then_constructs_witness :
  exists f,
    aligned_new gcc_linux_x86_64 vfloat4 = Compiles f /\
    aligned_malloc 16 16 sample_arena
    = (0x1010, Arena 0x1020 0x100000 (<[0x1010 := 16]> ∅) 0x7FFF0000) /\
    0x1010 <> nullptr /\
    ty_ctor_throws vfloat4 = false /\
    f [1; 2; 3; 4] (sample_world sample_cpu sample_arena) =
    Returns 0x1010
      (World sample_cpu (w_regs (sample_world sample_cpu sample_arena))
         (Arena 0x1020 0x100000 (<[0x1010 := 16]> ∅) 0x7FFF0000)
         (<[0x1010 := ("simd::vfloat4"%string, [1; 2; 3; 4])]> ∅)
         [EvAlignedMalloc 16 16 0x1010; EvConstruct "simd::vfloat4" 0x1010 [1; 2; 3; 4]]).
Proof.
  eexists. split; [reflexivity|]. split; [reflexivity|].
  split; [discriminate|]. split; [reflexivity|].
  refine (proj1 (proj2 (C3_aligned_new_allocates_then_constructs gcc_linux_x86_64 vfloat4 _
                          [1; 2; 3; 4] (sample_world sample_cpu sample_arena) 0x1010 _
                          eq_refl eq_refl)) _ eq_refl).
  discriminate.
Defined.

(** C3 does not extend to a constructor that throws: [aligned_malloc]
    returns a pointer that is not null, and [aligned_new] returns no
    pointer at all; the exception leaves it. *)
Lemma C3_throwing_constructor_counterexample :
  exists f,
    aligned_new gcc_linux_x86_64 thrower = Compiles f /\
    aligned_malloc (ty_sizeof thrower) (ty_alignof thrower) sample_arena
    = (0x1010, Arena 0x1020 0x100000 (<[0x1010 := 16]> ∅) 0x7FFF0000) /\
    0x1010 <> nullptr /\
    ~ (exists (q : Z) (w' : world Z arena),
         f [1] (sample_world sample_cpu sample_arena) = Returns q w') /\
    f [1] (sample_world sample_cpu sample_arena) =
    Throws
      (World sample_cpu (w_regs (sample_world sample_cpu sample_arena))
         (Arena 0x1020 0x100000 (<[0x1010 := 16]> ∅) 0x7FFF0000) ∅
         [EvAlignedMalloc 16 16 0x1010; EvConstruct "thrower" 0x1010 [1]]).
Proof.
  eexists. split; [reflexivity|]. split; [reflexivity|].
  split; [discriminate|]. split.
  - intros (q & w' & Hrun). discriminate Hrun.
  - reflexivity.
Qed.




Lemma C6_static_assert_guards_over_alignment_witness :
  ty_alignof vfloat4 > alignof_voidp gcc_linux_x86_64 /\
  exists f, @aligned_new Z arena _ gcc_linux_x86_64 vfloat4 = Compiles f.
Proof.
  split; [reflexivity|].
  apply (proj1 (proj2 (C6_static_assert_guards_over_alignment (value:=Z) (mem:=arena)
                         gcc_linux_x86_64 vfloat4))).
  reflexivity.
Defined.

Lemma C7_queries_are_deterministic_witness :
  w_cpu (sample_world sample_cpu sample_arena) = w_cpu (sample_world sample_cpu exhausted_arena) /\
  result (cpu_has gcc_linux_x86_64 avx2 (sample_world sample_cpu sample_arena)) =
  result (cpu_has gcc_linux_x86_64 avx2 (sample_world sample_cpu exhausted_arena)).
Proof.
  split; [reflexivity|].
  apply (proj1 (proj2 (C7_queries_are_deterministic gcc_linux_x86_64 avx2))).
  reflexivity.
Defined.

Lemma C8_aligned_malloc_null_or_aligned_block_witness :
  arena_ok sample_arena /\ 0 <= 6 /\ 0 < 256 /\
  exists a h',
    aligned_malloc 256 (2 ^ 6) sample_arena = (a, h') /\
    (a = nullptr /\ h' = sample_arena \/
     a <> nullptr /\ a mod 2 ^ 6 = 0 /\ heads_block h' a 256 /\ arena_ok h') /\
    forall w : world Z arena,
      w_mem w = sample_arena ->
      exists w', call_aligned_malloc 256 (2 ^ 6) w = Returns a w' /\ w_mem w' = h'.
Proof.
  split; [exact sample_arena_ok|].
  split; [lia|]. split; [lia|].
  apply C8_aligned_malloc_null_or_aligned_block; [exact sample_arena_ok | lia | lia].
Defined.

Lemma C9_endian_tests_witness :
  (def_WIN32 gcc_linux_x86_64 = false ->
   ORDER_LITTLE_ENDIAN gcc_linux_x86_64 <> ORDER_BIG_ENDIAN gcc_linux_x86_64) /\
  littleendian gcc_linux_x86_64 = true /\ bigendian gcc_linux_x86_64 = false /\
  ~ (littleendian gcc_linux_x86_64 = true /\ bigendian gcc_linux_x86_64 = true).
Proof.
  assert (Hne : def_WIN32 gcc_linux_x86_64 = false ->
                ORDER_LITTLE_ENDIAN gcc_linux_x86_64 <> ORDER_BIG_ENDIAN gcc_linux_x86_64)
    by (intros _; discriminate).
  split; [exact Hne|].
  split; [reflexivity|]. split; [reflexivity|].
  exact (proj1 (proj2 (proj2 (C9_endian_tests gcc_linux_x86_64 Hne)))).
Defined.

(** * Further properties of the header *)

(** ** Version codes *)

Lemma version_code_lt (a b : Z * Z * Z) :
  two_digits a -> two_digits b ->
  (version_code a < version_code b <-> version_lt a b).
Proof.
  destruct a as [[major1 minor1] patch1], b as [[major2 minor2] patch2].
  unfold two_digits, version_code, version_lt.
  intros [Hm1 Hp1] [Hm2 Hp2]. lia.
Qed.

(** X1: with two decimal digits for minor version and patch level,
    comparing version codes is comparing versions, in both directions and
    for equality as well. *)
Theorem version_code_order (a b : Z * Z * Z) :
  two_digits a -> two_digits b ->
  (version_code a < version_code b <-> version_lt a b) /\
  (version_code a = version_code b <-> a = b).
Proof.
  intros Ha Hb. split; [now apply version_code_lt|].
  destruct a as [[major1 minor1] patch1], b as [[major2 minor2] patch2].
  unfold two_digits, version_code in *.
  destruct Ha as [Hm1 Hp1], Hb as [Hm2 Hp2].
  split.
  - intros Heq.
    assert (major1 = major2) by lia.
    assert (minor1 = minor2) by lia.
    assert (patch1 = patch2) by lia.
    congruence.
  - intros [= -> -> ->]. reflexivity.
Qed.

Lemma version_code_order_witness :
  two_digits (4, 8, 2) /\ two_digits (9, 0, 0) /\
  (version_code (4, 8, 2) < version_code (9, 0, 0) <-> version_lt (4, 8, 2) (9, 0, 0)).
Proof.
  assert (Ha : two_digits (4, 8, 2)) by (cbn; lia).
  assert (Hb : two_digits (9, 0, 0)) by (cbn; lia).
  split; [exact Ha|]. split; [exact Hb|].
  exact (proj1 (version_code_order (4, 8, 2) (9, 0, 0) Ha Hb)).
Defined.

(** X2: the three parts of a version can be read back from its code. *)
Theorem version_code_decode (major minor patch : Z) :
  0 <= major -> two_digits (major, minor, patch) ->
  let c := version_code (major, minor, patch) in
  (c / 10000, c / 100 mod 100, c mod 100) = (major, minor, patch).
Proof.
  unfold two_digits, version_code. intros Hmaj [Hmin Hpat]. cbn zeta.
  assert (H1 : (10000 * major + 100 * minor + patch) / 10000 = major).
  { symmetry. apply (Z.div_unique _ 10000 major (100 * minor + patch)); lia. }
  assert (H2 : (10000 * major + 100 * minor + patch) / 100 = 100 * major + minor).
  { symmetry. apply (Z.div_unique _ 100 (100 * major + minor) patch); lia. }
  assert (H3 : (100 * major + minor) mod 100 = minor).
  { symmetry. apply (Z.mod_unique _ 100 major minor); lia. }
  assert (H4 : (10000 * major + 100 * minor + patch) mod 100 = patch).
  { symmetry. apply (Z.mod_unique _ 100 (100 * major + minor) patch); lia. }
  rewrite H1, H2, H3, H4. reflexivity.
Qed.

Lemma version_code_decode_witness :
  0 <= 4 /\ two_digits (4, 8, 2) /\
  version_code (4, 8, 2) = 40802 /\
  (40802 / 10000, 40802 / 100 mod 100, 40802 mod 100) = (4, 8, 2).
Proof.
  assert (Ha : two_digits (4, 8, 2)) by (cbn; lia).
  split; [lia|]. split; [exact Ha|]. split; [reflexivity|].
  exact (version_code_decode 4 8 2 ltac:(lia) Ha).
Defined.

(** ** Which compiler the version macros name *)

(** X3: where any clang is in use [OIIO_GNUC_VERSION] is 0, and in a header
    that passes its [#error] checks at most one of [OIIO_CLANG_VERSION],
    [OIIO_APPLE_CLANG_VERSION] and [OIIO_INTEL_CLANG_VERSION] is not 0. *)
Theorem clang_versions_exclusive (tc : toolchain) :
  platform_h_error tc = None ->
  (OIIO_ANY_CLANG tc = 1 -> OIIO_GNUC_VERSION tc = 0) /\
  (OIIO_CLANG_VERSION tc <> 0 ->
   OIIO_APPLE_CLANG_VERSION tc = 0 /\ OIIO_INTEL_CLANG_VERSION tc = 0) /\
  (OIIO_APPLE_CLANG_VERSION tc <> 0 ->
   OIIO_CLANG_VERSION tc = 0 /\ OIIO_INTEL_CLANG_VERSION tc = 0) /\
  (OIIO_INTEL_CLANG_VERSION tc <> 0 ->
   OIIO_CLANG_VERSION tc = 0 /\ OIIO_APPLE_CLANG_VERSION tc = 0).
Proof.
  unfold platform_h_error, OIIO_ANY_CLANG, OIIO_GNUC_VERSION, OIIO_CLANG_VERSION,
    OIIO_APPLE_CLANG_VERSION, OIIO_INTEL_CLANG_VERSION.
  destruct (tc_GNUC tc), (defined (tc_clang tc)), (tc_apple_build_version tc),
    (defined (tc_INTEL_LLVM_COMPILER tc)); cbn; intros Herr;
    try discriminate; repeat split; intros; try reflexivity; try congruence; try lia.
Qed.

Lemma clang_versions_exclusive_witness :
  platform_h_error apple_clang_15 = None /\
  OIIO_APPLE_CLANG_VERSION apple_clang_15 = 150000 /\
  OIIO_GNUC_VERSION apple_clang_15 = 0 /\
  OIIO_CLANG_VERSION apple_clang_15 = 0 /\ OIIO_INTEL_CLANG_VERSION apple_clang_15 = 0.
Proof.
  split; [reflexivity|]. split; [reflexivity|].
  destruct (clang_versions_exclusive apple_clang_15 eq_refl) as (Hg & _ & Ha & _).
  split; [exact (Hg eq_refl)|].
  apply Ha. discriminate.
Defined.

(** ** Tests for MSVS versions *)

(** X4: off MSVS every test is false; on MSVS exactly one of [AT_LEAST] and
    [BEFORE] of a year is true, and [AT_LEAST] of a year implies [AT_LEAST]
    of the years before it. *)
Theorem msvs_tests_consistent (tc : toolchain) :
  (tc_MSC_VER tc = None ->
   OIIO_MSVS_VERSION tc = 0 /\
   [OIIO_MSVS_AT_LEAST_2013 tc; OIIO_MSVS_BEFORE_2013 tc;
    OIIO_MSVS_AT_LEAST_2015 tc; OIIO_MSVS_BEFORE_2015 tc;
    OIIO_MSVS_AT_LEAST_2017 tc; OIIO_MSVS_BEFORE_2017 tc;
    OIIO_MSVS_AT_LEAST_2019 tc; OIIO_MSVS_BEFORE_2019 tc;
    OIIO_MSVS_AT_LEAST_2022 tc; OIIO_MSVS_BEFORE_2022 tc] = replicate 10 false) /\
  (tc_MSC_VER tc <> None ->
   OIIO_MSVS_BEFORE_2013 tc = negb (OIIO_MSVS_AT_LEAST_2013 tc) /\
   OIIO_MSVS_BEFORE_2015 tc = negb (OIIO_MSVS_AT_LEAST_2015 tc) /\
   OIIO_MSVS_BEFORE_2017 tc = negb (OIIO_MSVS_AT_LEAST_2017 tc) /\
   OIIO_MSVS_BEFORE_2019 tc = negb (OIIO_MSVS_AT_LEAST_2019 tc) /\
   OIIO_MSVS_BEFORE_2022 tc = negb (OIIO_MSVS_AT_LEAST_2022 tc)) /\
  (OIIO_MSVS_AT_LEAST_2022 tc = true -> OIIO_MSVS_AT_LEAST_2019 tc = true) /\
  (OIIO_MSVS_AT_LEAST_2019 tc = true -> OIIO_MSVS_AT_LEAST_2017 tc = true) /\
  (OIIO_MSVS_AT_LEAST_2017 tc = true -> OIIO_MSVS_AT_LEAST_2015 tc = true) /\
  (OIIO_MSVS_AT_LEAST_2015 tc = true -> OIIO_MSVS_AT_LEAST_2013 tc = true).
Proof.
  unfold OIIO_MSVS_VERSION, OIIO_MSVS_AT_LEAST_2013, OIIO_MSVS_BEFORE_2013,
    OIIO_MSVS_AT_LEAST_2015, OIIO_MSVS_BEFORE_2015, OIIO_MSVS_AT_LEAST_2017,
    OIIO_MSVS_BEFORE_2017, OIIO_MSVS_AT_LEAST_2019, OIIO_MSVS_BEFORE_2019,
    OIIO_MSVS_AT_LEAST_2022, OIIO_MSVS_BEFORE_2022.
  destruct (tc_MSC_VER tc) as [v|].
  - split; [discriminate|].
    split; [intros _; repeat split; lia|].
    repeat split; lia.
  - split; [intros _; split; reflexivity|].
    split; [congruence|].
    repeat split; discriminate.
Qed.

Lemma msvs_tests_consistent_witness :
  tc_MSC_VER msvc_1930 <> None /\
  OIIO_MSVS_AT_LEAST_2022 msvc_1930 = true /\
  OIIO_MSVS_BEFORE_2022 msvc_1930 = negb (OIIO_MSVS_AT_LEAST_2022 msvc_1930) /\
  OIIO_MSVS_AT_LEAST_2019 msvc_1930 = true.
Proof.
  assert (Hd : tc_MSC_VER msvc_1930 <> None) by discriminate.
  destruct (msvs_tests_consistent msvc_1930) as (_ & Hc & H22 & _).
  destruct (Hc Hd) as (_ & _ & _ & _ & Hb).
  split; [exact Hd|]. split; [reflexivity|]. split; [exact Hb|].
  exact (H22 eq_refl).
Defined.

(** ** What a header that passes its [#error] checks guarantees *)

(** X5: in a header that passes its [#error] checks [OIIO_CPLUSPLUS_VERSION] is
    17 or 20, [OIIO_NODISCARD] is the attribute whatever
    [__has_cpp_attribute] says, and an MSVS compiler is Visual Studio 2017
    or later. *)
Theorem accepted_header_guarantees (tc : toolchain) :
  platform_h_error tc = None ->
  (OIIO_CPLUSPLUS_VERSION tc = Some 17 \/ OIIO_CPLUSPLUS_VERSION tc = Some 20) /\
  OIIO_NODISCARD tc = true /\
  OIIO_MSVS_BEFORE_2017 tc = false /\
  (tc_MSC_VER tc <> None ->
   OIIO_MSVS_AT_LEAST_2017 tc = true /\ 1910 <= OIIO_MSVS_VERSION tc).
Proof.
  unfold platform_h_error, OIIO_NODISCARD.
  destruct (defined (tc_clang tc) && tc_apple_build_version tc
            && defined (tc_INTEL_LLVM_COMPILER tc)); [discriminate|].
  destruct (OIIO_MSVS_BEFORE_2017 tc) eqn:Hb; [discriminate|].
  destruct (OIIO_CPLUSPLUS_VERSION tc) as [v|] eqn:Hv; [|discriminate].
  intros _.
  assert (Hv' : v = 17 \/ v = 20).
  { unfold OIIO_CPLUSPLUS_VERSION in Hv.
    destruct (202001 <=? tc_cplusplus tc); [injection Hv as <-; auto|].
    destruct ((201703 <=? tc_cplusplus tc)
              || match tc_MSC_VER tc with Some v0 => 1914 <=? v0 | None => false end);
      [injection Hv as <-; auto | discriminate]. }
  split; [destruct Hv' as [-> | ->]; auto|].
  split; [destruct Hv' as [-> | ->]; reflexivity|].
  split; [reflexivity|].
  unfold OIIO_MSVS_BEFORE_2017 in Hb.
  unfold OIIO_MSVS_AT_LEAST_2017, OIIO_MSVS_VERSION.
  destruct (tc_MSC_VER tc) as [m|]; [|congruence].
  intros _. split; lia.
Qed.

Lemma accepted_header_guarantees_witness :
  platform_h_error msvc_1930 = None /\
  OIIO_CPLUSPLUS_VERSION msvc_1930 = Some 17 /\
  OIIO_NODISCARD msvc_1930 = true /\
  OIIO_MSVS_BEFORE_2017 msvc_1930 = false.
Proof.
  destruct (accepted_header_guarantees msvc_1930 eq_refl) as (_ & Hn & Hb & _).
  split; [reflexivity|]. split; [reflexivity|]. split; [exact Hn | exact Hb].
Defined.

(** X6: an MSVS compiler that reports [__cplusplus] below 201703 passes the
    [#error] checks exactly from [_MSC_VER] 1914 on, and then compiles as
    C++17: versions 1910 to 1913 pass the Visual Studio 2017 check and stop
    at the C++17 check. *)
Theorem msvs_with_old_cplusplus (tc : toolchain) (v : Z) :
  tc_MSC_VER tc = Some v -> tc_cplusplus tc < 201703 ->
  defined (tc_clang tc) && tc_apple_build_version tc
    && defined (tc_INTEL_LLVM_COMPILER tc) = false ->
  (platform_h_error tc = None <-> 1914 <= v) /\
  (1914 <= v -> OIIO_CPLUSPLUS_VERSION tc = Some 17) /\
  (1910 <= v < 1914 ->
   platform_h_error tc =
   Some "This version of OIIO is meant to work only with C++17 and above").
Proof.
  intros Hm Hc Hai.
  unfold platform_h_error, OIIO_MSVS_BEFORE_2017, OIIO_CPLUSPLUS_VERSION.
  rewrite Hai, Hm.
  destruct (Z.leb_spec 202001 (tc_cplusplus tc)); [lia|].
  destruct (Z.leb_spec 201703 (tc_cplusplus tc)); [lia|].
  cbn [orb].
  destruct (Z.ltb_spec v 1910), (Z.leb_spec 1914 v); try lia;
    repeat split; intros; try reflexivity; try discriminate; try lia.
Qed.

Lemma msvs_with_old_cplusplus_witness :
  tc_MSC_VER msvc_1912 = Some 1912 /\ tc_cplusplus msvc_1912 < 201703 /\
  1910 <= 1912 < 1914 /\
  platform_h_error msvc_1912 =
  Some "This version of OIIO is meant to work only with C++17 and above".
Proof.
  assert (Hc : tc_cplusplus msvc_1912 < 201703) by (cbn; lia).
  assert (Hv : 1910 <= 1912 < 1914) by lia.
  split; [reflexivity|]. split; [exact Hc|]. split; [exact Hv|].
  exact (proj2 (proj2 (msvs_with_old_cplusplus msvc_1912 1912 eq_refl Hc eq_refl)) Hv).
Defined.

(** X7: on gcc proper (no clang, no Intel compiler) where [__has_attribute]
    does not vouch for it, the two no-sanitize attributes are used exactly
    for versions after 9.0.0. *)
Theorem no_sanitize_on_gcc (tc : toolchain) (v : Z * Z * Z) :
  tc_GNUC tc = Some v -> tc_clang tc = None -> tc_INTEL_COMPILER tc = None ->
  two_digits v ->
  (has_attribute tc "no_sanitize_address" = false ->
   (OIIO_NO_SANITIZE_ADDRESS tc = true <-> version_lt (9, 0, 0) v)) /\
  (has_attribute tc "no_sanitize" = false ->
   (OIIO_NO_SANITIZE_UNDEFINED tc = true <-> version_lt (9, 0, 0) v)).
Proof.
  intros Hg Hc Hi Hd.
  assert (H9 : two_digits (9, 0, 0)) by (cbn; lia).
  pose proof (version_code_lt (9, 0, 0) v H9 Hd) as Hord.
  change (version_code (9, 0, 0)) with 90000 in Hord.
  unfold OIIO_NO_SANITIZE_ADDRESS, OIIO_NO_SANITIZE_UNDEFINED, OIIO_GNUC_VERSION.
  rewrite Hg, Hc, Hi. cbn [defined negb orb andb].
  split; intros ->; rewrite andb_true_r, orb_false_r, Z.ltb_lt; exact Hord.
Qed.

Lemma no_sanitize_on_gcc_witness :
  tc_GNUC gcc_9_0_0_plain = Some (9, 0, 0) /\ tc_clang gcc_9_0_0_plain = None /\
  tc_INTEL_COMPILER gcc_9_0_0_plain = None /\ two_digits (9, 0, 0) /\
  has_attribute gcc_9_0_0_plain "no_sanitize_address" = false /\
  (OIIO_NO_SANITIZE_ADDRESS gcc_9_0_0_plain = true <-> version_lt (9, 0, 0) (9, 0, 0)).
Proof.
  assert (H9 : two_digits (9, 0, 0)) by (cbn; lia).
  repeat (split; [first [reflexivity | exact H9]|]).
  exact (proj1 (no_sanitize_on_gcc gcc_9_0_0_plain (9, 0, 0) eq_refl eq_refl eq_refl H9)
           eq_refl).
Defined.

(** ** Pragma control *)

(** X8: a pragma written for one family of compilers is nothing for the
    others: the gcc and the MSVS macro never both expand; the clang, gcc-only,
    Intel and Intel LLVM macros expand only where the gcc macro does; of the
    clang and the gcc-only macro exactly one expands where the gcc macro
    does; and without [__GNUC__] the Intel macro is nothing even for an
    Intel compiler. *)
Theorem pragmas_by_family (tc : toolchain) (x : string) :
  (OIIO_GCC_PRAGMA tc x = NoPragma \/ OIIO_MSVS_PRAGMA tc x = NoPragma) /\
  (OIIO_GCC_PRAGMA tc x = NoPragma ->
   OIIO_CLANG_PRAGMA tc x = NoPragma /\ OIIO_GCC_ONLY_PRAGMA tc x = NoPragma /\
   OIIO_INTEL_PRAGMA tc x = NoPragma /\ OIIO_INTEL_LLVM_PRAGMA tc x = NoPragma) /\
  (OIIO_GCC_PRAGMA tc x <> NoPragma ->
   (OIIO_CLANG_PRAGMA tc x = OIIO_GCC_PRAGMA tc x /\ OIIO_GCC_ONLY_PRAGMA tc x = NoPragma) \/
   (OIIO_CLANG_PRAGMA tc x = NoPragma /\ OIIO_GCC_ONLY_PRAGMA tc x = OIIO_GCC_PRAGMA tc x)) /\
  (tc_GNUC tc = None -> OIIO_INTEL_PRAGMA tc x = NoPragma).
Proof.
  unfold OIIO_GCC_PRAGMA, OIIO_MSVS_PRAGMA, OIIO_CLANG_PRAGMA, OIIO_GCC_ONLY_PRAGMA,
    OIIO_INTEL_PRAGMA, OIIO_INTEL_LLVM_PRAGMA, OIIO_PRAGMA.
  destruct (tc_GNUC tc), (defined (tc_MSC_VER tc)), (defined (tc_clang tc)),
    (defined (tc_INTEL_COMPILER tc)), (defined (tc_INTEL_LLVM_COMPILER tc));
    cbn; repeat split; intros; try discriminate; try congruence; auto.
Qed.

Lemma pragmas_by_family_witness :
  OIIO_GCC_PRAGMA gcc_13_2 "GCC diagnostic ignored" <> NoPragma /\
  OIIO_GCC_ONLY_PRAGMA gcc_13_2 "GCC diagnostic ignored"
  = Pragma_operator "GCC diagnostic ignored" /\
  OIIO_CLANG_PRAGMA gcc_13_2 "GCC diagnostic ignored" = NoPragma /\
  OIIO_MSVS_PRAGMA gcc_13_2 "GCC diagnostic ignored" = NoPragma.
Proof.
  assert (Hg : OIIO_GCC_PRAGMA gcc_13_2 "GCC diagnostic ignored" <> NoPragma)
    by discriminate.
  destruct (pragmas_by_family gcc_13_2 "GCC diagnostic ignored") as (Hm & _ & Hx & _).
  split; [exact Hg|]. split; [reflexivity|].
  split.
  - destruct (Hx Hg) as [[_ Hno] | [Hno _]]; [discriminate Hno | exact Hno].
  - destruct Hm as [Hm | Hm]; [contradiction | exact Hm].
Defined.

(** ** [cpuid] for any leaf *)

Lemma int_of_reg_to_int32 (z : Z) : int_of_reg (to_int32 (to_uint32 z)) z.
Proof.
  split.
  - unfold to_int32.
    pose proof (Z.mod_pos_bound (to_uint32 z + 2 ^ 31) (2 ^ 32) ltac:(lia)). lia.
  - unfold to_uint32 at 1. rewrite to_int32_mod.
    fold (to_uint32 (to_uint32 z)). apply to_uint32_idem.
Qed.

Section CpuidAnyLeaf.

Context {value mem : Type} `{Platform mem}.
Variable cfg : build.

Abbreviation world := (world value mem).

Lemma cpuid_x86_any (info : int_array) (infoType extra : Z) (w : world) :
  x86_family cfg = true -> length info = 4%nat ->
  exists r,
    cpuid cfg info infoType extra w =
    Returns (cpuid_array (w_cpu w (to_uint32 infoType) (to_uint32 extra)))
            (World (w_cpu w) r (w_mem w) (w_objs w)
                   (w_log w ++ [EvCpuid (to_uint32 infoType) (to_uint32 extra)])).
Proof.
  intros Hx Hlen. unfold cpuid. rewrite Hx.
  destruct info as [|c0 [|c1 [|c2 [|c3 [|c4 info]]]]]; try discriminate.
  destruct (def_MSC_VER cfg); [|destruct (def_x86_64 cfg)];
    eexists; reflexivity.
Qed.

(** X9: on an x86 build [cpuid(info, infoType, extra)] executes the instruction
    once, with the 32 bits of [infoType] in [eax] and of [extra] in [ecx]
    (a leaf such as 0x80000001 arrives as a negative [int]), and leaves in
    each of the four slots the [int] that holds the 32 bits of the register;
    the array it was given does not matter, and neither does the variant
    the build compiles. *)
Theorem cpuid_reports_registers (info : int_array) (infoType extra : Z) (w : world) :
  x86_family cfg = true -> length info = 4%nat ->
  let o := w_cpu w (to_uint32 infoType) (to_uint32 extra) in
  exists r v0 v1 v2 v3,
    cpuid cfg info infoType extra w =
    Returns [Some v0; Some v1; Some v2; Some v3]
            (World (w_cpu w) r (w_mem w) (w_objs w)
                   (w_log w ++ [EvCpuid (to_uint32 infoType) (to_uint32 extra)])) /\
    int_of_reg v0 (out_eax o) /\ int_of_reg v1 (out_ebx o) /\
    int_of_reg v2 (out_ecx o) /\ int_of_reg v3 (out_edx o).
Proof.
  intros Hx Hlen o.
  destruct (cpuid_x86_any info infoType extra w Hx Hlen) as (r & Hr).
  exists r. eexists _, _, _, _. split; [exact Hr|].
  repeat split; apply int_of_reg_to_int32.
Qed.


(** X11: on every build [cpuid] returns with the four slots written: a slot
    read after the call is an [int], never an uninitialised value, and the
    content the array had before plays no part. *)
Theorem cpuid_initialises_every_slot
    (info info' : int_array) (infoType extra : Z) (w : world) :
  length info = 4%nat -> length info' = 4%nat ->
  cpuid cfg info infoType extra w = cpuid cfg info' infoType extra w /\
  exists a w',
    cpuid cfg info infoType extra w = Returns a w' /\
    forall k, (k < 4)%nat ->
      exists v, load a k w' = Returns v w' /\ - 2 ^ 31 <= v < 2 ^ 31.
Proof.
  intros Hlen Hlen'.
  destruct (x86_family cfg) eqn:Hx.
  - destruct (cpuid_x86_any info infoType extra w Hx Hlen) as (ra & Hra).
    split.
    + unfold cpuid. rewrite Hx.
      destruct info as [|c0 [|c1 [|c2 [|c3 [|c4 info]]]]]; try discriminate.
      destruct info' as [|d0 [|d1 [|d2 [|d3 [|d4 info']]]]]; try discriminate.
      destruct (def_MSC_VER cfg); [|destruct (def_x86_64 cfg)]; reflexivity.
    + eexists _, _. split; [exact Hra|].
      intros k Hk.
      destruct k as [|[|[|[|k]]]]; [| | | |lia];
        eexists; (split; [reflexivity | apply int_of_reg_to_int32]).
  - rewrite (cpuid_other cfg info infoType extra w Hx Hlen).
    rewrite (cpuid_other cfg info' infoType extra w Hx Hlen').
    split; [reflexivity|].
    eexists _, _. split; [reflexivity|].
    intros k Hk.
    destruct k as [|[|[|[|k]]]]; [| | | |lia]; exists 0; (split; [reflexivity|lia]).
Qed.

End CpuidAnyLeaf.

Lemma cpuid_reports_registers_witness :
  x86_family gcc_linux_i386 = true /\
  exists r v0 v1 v2 v3,
    cpuid gcc_linux_i386 int4 (to_int32 0x80000001) 0 (sample_world full_cpu sample_arena) =
    Returns [Some v0; Some v1; Some v2; Some v3]
      (World full_cpu r sample_arena ∅ [EvCpuid 0x80000001 0]) /\
    int_of_reg v0 0xFFFFFFFF /\ int_of_reg v1 0xFFFFFFFF /\
    int_of_reg v2 0xFFFFFFFF /\ int_of_reg v3 0xFFFFFFFF.
Proof.
  split; [reflexivity|].
  exact (cpuid_reports_registers gcc_linux_i386 int4 (to_int32 0x80000001) 0
           (sample_world full_cpu sample_arena) eq_refl eq_refl).
Defined.


Lemma cpuid_initialises_every_slot_witness :
  exists a w',
    cpuid gcc_linux_aarch64 [Some 7; None; None; Some 9] 1 0
      (sample_world full_cpu sample_arena) = Returns a w' /\
    forall k, (k < 4)%nat ->
      exists v, load a k w' = Returns v w' /\ - 2 ^ 31 <= v < 2 ^ 31.
Proof.
  exact (proj2 (cpuid_initialises_every_slot gcc_linux_aarch64
                  [Some 7; None; None; Some 9] int4 1 0
                  (sample_world full_cpu sample_arena) eq_refl eq_refl)).
Defined.

(** ** [OIIO_ALLOCA] and [OIIO_ALLOCATE_STACK_OR_HEAP] *)

Section StackOrHeapFacts.

Context {value mem : Type} `{Platform mem}.
Variable cfg : build.
Variable new_array : cxx_type -> Z -> M (world value mem) Z.

Abbreviation world := (world value mem).

(** Without assertions every size but 0 reaches the primitive. *)
Lemma OIIO_ALLOCA_release (type : cxx_type) (size : Z) (w : world) :
  def_NDEBUG cfg = true -> size <> 0 ->
  OIIO_ALLOCA cfg type size w = call_alloca (to_size_t cfg (size * ty_sizeof type)) w.
Proof.
  intros Hd Hz.
  unfold OIIO_ALLOCA, assert, bind. rewrite Hd.
  apply Z.eqb_neq in Hz. rewrite Hz.
  destruct (def_GNUC cfg); reflexivity.
Qed.

(** At an argument the assertion compares as a whole the macro is the
    function of the value. *)
Lemma OIIO_ALLOCA_written_tight (type : cxx_type) (size : Z) (w : world) :
  OIIO_ALLOCA_written cfg type (Tight size) w = OIIO_ALLOCA cfg type size w.
Proof. reflexivity. Qed.

(** X12: an argument that the assertion compares as a whole and whose
    value is a negative [int] passes the assertion in every build, and the
    primitive is asked for the product as [std::size_t] sees it:
    [2^bits - |size| * sizeof(type)] bytes. *)
Theorem OIIO_ALLOCA_negative_size (type : cxx_type) (size : Z) (w : world) :
  0 <= size_t_bits cfg -> 0 < ty_sizeof type -> size < 0 ->
  - (size * ty_sizeof type) <= 2 ^ size_t_bits cfg ->
  OIIO_ALLOCA_written cfg type (Tight size) w =
  call_alloca (2 ^ size_t_bits cfg + size * ty_sizeof type) w.
Proof.
  intros Hb Hs Hn Hfit.
  rewrite OIIO_ALLOCA_written_tight, OIIO_ALLOCA_calls by lia.
  f_equal. unfold to_size_t.
  assert (Hp : 0 < 2 ^ size_t_bits cfg) by (apply Z.pow_pos_nonneg; lia).
  assert (Hneg : size * ty_sizeof type < 0) by nia.
  symmetry. apply (Z.mod_unique _ _ (-1)); lia.
Qed.

(** X18: the argument is not between parentheses in the assertion.  With
    assertions on, an argument written [a & b] with [a] even fails the
    assertion whatever its value, because the assertion tests
    [a & (b < (1<<20))]; an argument written [a | b] with [a] not 0 passes
    the assertion in every build whatever its value, because the assertion
    tests [a | (b < (1<<20))], and the primitive is asked for
    [(a | b) * sizeof(type)] bytes. *)
Theorem OIIO_ALLOCA_unparenthesised (type : cxx_type) (a b : Z) (w : world) :
  (def_NDEBUG cfg = false -> Z.even a = true ->
   OIIO_ALLOCA_written cfg type (BitAnd a b) w = AssertFails w) /\
  (a <> 0 ->
   OIIO_ALLOCA_written cfg type (BitOr a b) w =
   call_alloca (to_size_t cfg (Z.lor a b * ty_sizeof type)) w).
Proof.
  split.
  - intros Hd Ha.
    assert (Hland : Z.land a (Z.b2z (b <? Z.shiftl 1 20)) = 0).
    { destruct (b <? Z.shiftl 1 20); cbn [Z.b2z].
      - change 1 with (Z.ones 1). rewrite Z.land_ones by lia.
        change (2 ^ 1) with 2. rewrite Zmod_even, Ha. reflexivity.
      - apply Z.land_0_r. }
    unfold OIIO_ALLOCA_written, assert, bind, arg_in_assert, truth.
    rewrite Hd, Hland. cbn [Z.eqb negb].
    destruct (def_GNUC cfg); reflexivity.
  - intros Ha.
    assert (Hpass : truth (Z.lor a (Z.b2z (b <? Z.shiftl 1 20))) = true).
    { unfold truth. apply negb_true_iff, Z.eqb_neq.
      intros Hz. apply Z.lor_eq_0_iff in Hz as [Hz _]. contradiction. }
    assert (Hval : (Z.lor a b =? 0) = false).
    { apply Z.eqb_neq. intros Hz. apply Z.lor_eq_0_iff in Hz as [Hz _]. contradiction. }
    unfold OIIO_ALLOCA_written, assert, bind, arg_in_assert, arg_value.
    rewrite Hpass, Hval. cbn [negb].
    destruct (def_GNUC cfg), (def_NDEBUG cfg); reflexivity.
Qed.

(** X13: when [size * sizeof(T)] is at most 64 KB, the macro takes the stack:
    for a size of 0 [var] is null and nothing is allocated; otherwise the
    primitive is asked for exactly [size * sizeof(T)] bytes, no assertion
    fails, and the [unique_ptr] stays null. *)
Theorem stack_or_heap_small (T : cxx_type) (size : Z) (w : world) :
  17 <= size_t_bits cfg -> 0 < ty_sizeof T -> 0 <= size ->
  size * ty_sizeof T <= 2 ^ 16 ->
  OIIO_ALLOCATE_STACK_OR_HEAP cfg new_array T size w =
  if size =? 0 then Returns (nullptr, nullptr) w
  else (let* var := call_alloca (size * ty_sizeof T) in ret (var, nullptr)) w.
Proof.
  intros Hb Hs Hn Hfit.
  assert (Hpow : 2 ^ 17 <= 2 ^ size_t_bits cfg) by (apply Z.pow_le_mono_r; lia).
  assert (Hsz : size <= 2 ^ 16) by nia.
  assert (Hsize : to_size_t cfg size = size)
    by (unfold to_size_t; apply Z.mod_small; lia).
  assert (Hprod : to_size_t cfg (size * ty_sizeof T) = size * ty_sizeof T)
    by (unfold to_size_t; apply Z.mod_small; nia).
  unfold OIIO_ALLOCATE_STACK_OR_HEAP. rewrite Hsize, Hprod.
  change (Z.shiftl 1 16) with (2 ^ 16).
  destruct (Z.leb_spec (size * ty_sizeof T) (2 ^ 16)); [|lia].
  unfold bind at 1.
  destruct (Z.eqb_spec size 0) as [->|Hz].
  - rewrite OIIO_ALLOCA_zero. reflexivity.
  - rewrite OIIO_ALLOCA_calls by lia. rewrite Hprod. reflexivity.
Qed.

(** X14: with assertions on and [sizeof(T) * 2^20] within [std::size_t], a run
    that takes the stack and returns has a true byte count of at most
    64 KB: a product that only wraps around to a small value is stopped by
    the assertion of [OIIO_ALLOCA]. *)
Theorem stack_or_heap_checked (T : cxx_type) (size : Z) (w : world)
    (r : Z * Z) (w' : world) :
  def_NDEBUG cfg = false ->
  0 < ty_sizeof T -> ty_sizeof T * 2 ^ 20 <= 2 ^ size_t_bits cfg ->
  0 <= size < 2 ^ size_t_bits cfg ->
  to_size_t cfg (size * ty_sizeof T) <= 2 ^ 16 ->
  OIIO_ALLOCATE_STACK_OR_HEAP cfg new_array T size w = Returns r w' ->
  size * ty_sizeof T <= 2 ^ 16.
Proof.
  intros Hd Hs Hbits Hsz Hwrap Hrun.
  assert (Hsize : to_size_t cfg size = size)
    by (unfold to_size_t; apply Z.mod_small; lia).
  unfold OIIO_ALLOCATE_STACK_OR_HEAP in Hrun. rewrite Hsize in Hrun.
  change (Z.shiftl 1 16) with (2 ^ 16) in Hrun.
  destruct (Z.leb_spec (to_size_t cfg (size * ty_sizeof T)) (2 ^ 16)); [|lia].
  destruct (Z.lt_ge_cases size (2 ^ 20)) as [Hlt | Hge].
  - assert (Hprod : to_size_t cfg (size * ty_sizeof T) = size * ty_sizeof T)
      by (unfold to_size_t; apply Z.mod_small; nia).
    lia.
  - unfold bind in Hrun. rewrite (OIIO_ALLOCA_asserts cfg T size w Hd Hge) in Hrun.
    discriminate.
Qed.

(** X15: without assertions nothing stops the wrap-around: whenever the product
    as [std::size_t] sees it is at most 64 KB the macro takes the stack and
    asks the primitive for that many bytes, whatever the number of
    elements. *)
Theorem stack_or_heap_release_wraps (T : cxx_type) (size : Z) (w : world) :
  def_NDEBUG cfg = true ->
  to_size_t cfg size <> 0 ->
  to_size_t cfg (to_size_t cfg size * ty_sizeof T) <= 2 ^ 16 ->
  OIIO_ALLOCATE_STACK_OR_HEAP cfg new_array T size w =
  (let* var := call_alloca (to_size_t cfg (to_size_t cfg size * ty_sizeof T)) in
   ret (var, nullptr)) w.
Proof.
  intros Hd Hz Hwrap.
  unfold OIIO_ALLOCATE_STACK_OR_HEAP.
  change (Z.shiftl 1 16) with (2 ^ 16).
  destruct (Z.leb_spec (to_size_t cfg (to_size_t cfg size * ty_sizeof T)) (2 ^ 16)); [|lia].
  unfold bind at 1. rewrite OIIO_ALLOCA_release by assumption.
  reflexivity.
Qed.

End StackOrHeapFacts.

Lemma OIIO_ALLOCA_negative_size_witness :
  0 <= size_t_bits gcc_linux_x86_64 /\ 0 < ty_sizeof float /\ -1 < 0 /\
  - (-1 * ty_sizeof float) <= 2 ^ size_t_bits gcc_linux_x86_64 /\
  OIIO_ALLOCA_written gcc_linux_x86_64 float (Tight (-1))
    (sample_world sample_cpu sample_arena) =
  call_alloca 0xFFFFFFFFFFFFFFFC (sample_world sample_cpu sample_arena).
Proof.
  assert (H1 : 0 <= size_t_bits gcc_linux_x86_64) by (cbn; lia).
  assert (H2 : 0 < ty_sizeof float) by (cbn; lia).
  assert (H3 : -1 < 0) by lia.
  assert (H4 : - (-1 * ty_sizeof float) <= 2 ^ size_t_bits gcc_linux_x86_64) by (cbn; lia).
  repeat (split; [assumption|]).
  exact (OIIO_ALLOCA_negative_size gcc_linux_x86_64 float (-1)
           (sample_world sample_cpu sample_arena) H1 H2 H3 H4).
Defined.

(** [OIIO_ALLOCA(float, -2 & -2)] stops at the assertion although the
    value is -2; [OIIO_ALLOCA(float, (1<<21) | 0)] passes it and takes
    8 MB. *)
Lemma OIIO_ALLOCA_unparenthesised_witness :
  def_NDEBUG gcc_linux_x86_64 = false /\ Z.even (-2) = true /\ 2 ^ 21 <> 0 /\
  arg_value (BitAnd (-2) (-2)) = -2 /\
  OIIO_ALLOCA_written gcc_linux_x86_64 float (BitAnd (-2) (-2))
    (sample_world sample_cpu sample_arena)
  = AssertFails (sample_world sample_cpu sample_arena) /\
  OIIO_ALLOCA_written gcc_linux_x86_64 float (BitOr (2 ^ 21) 0)
    (sample_world sample_cpu sample_arena)
  = call_alloca (8 * 2 ^ 20) (sample_world sample_cpu sample_arena).
Proof.
  assert (Hz : 2 ^ 21 <> 0) by discriminate.
  destruct (OIIO_ALLOCA_unparenthesised gcc_linux_x86_64 float (-2) (-2)
              (sample_world sample_cpu sample_arena)) as [Hand _].
  destruct (OIIO_ALLOCA_unparenthesised gcc_linux_x86_64 float (2 ^ 21) 0
              (sample_world sample_cpu sample_arena)) as [_ Hor].
  split; [reflexivity|]. split; [reflexivity|]. split; [exact Hz|].
  split; [reflexivity|].
  split; [exact (Hand eq_refl eq_refl) | exact (Hor Hz)].
Defined.

Lemma stack_or_heap_small_witness :
  17 <= size_t_bits gcc_linux_x86_64 /\ 0 < ty_sizeof float /\ 0 <= 4096 /\
  4096 * ty_sizeof float <= 2 ^ 16 /\
  OIIO_ALLOCATE_STACK_OR_HEAP gcc_linux_x86_64 sample_new_array float 4096
    (sample_world sample_cpu sample_arena) =
  (let* var := call_alloca 16384 in ret (var, nullptr))
    (sample_world sample_cpu sample_arena).
Proof.
  assert (H1 : 17 <= size_t_bits gcc_linux_x86_64) by (cbn; lia).
  assert (H2 : 0 < ty_sizeof float) by (cbn; lia).
  assert (H3 : 0 <= 4096) by lia.
  assert (H4 : 4096 * ty_sizeof float <= 2 ^ 16) by (cbn; lia).
  repeat (split; [assumption|]).
  exact (stack_or_heap_small gcc_linux_x86_64 sample_new_array float 4096
           (sample_world sample_cpu sample_arena) H1 H2 H3 H4).
Defined.

Lemma stack_or_heap_checked_witness :
  def_NDEBUG gcc_linux_x86_64 = false /\
  exists r w',
    OIIO_ALLOCATE_STACK_OR_HEAP gcc_linux_x86_64 sample_new_array float 4096
      (sample_world sample_cpu sample_arena) = Returns r w' /\
    4096 * ty_sizeof float <= 2 ^ 16.
Proof.
  split; [reflexivity|].
  eexists _, _. split; [reflexivity|].
  refine (stack_or_heap_checked gcc_linux_x86_64 sample_new_array float 4096
            (sample_world sample_cpu sample_arena) _ _ eq_refl _ _ _ _ eq_refl);
    try split; now vm_compute.
Defined.

(** [2^62] floats in a build without assertions: the product wraps to 0 and
    the stack is asked for 0 bytes. *)
Lemma stack_or_heap_release_wraps_witness :
  def_NDEBUG gcc_linux_x86_64_release = true /\
  to_size_t gcc_linux_x86_64_release (2 ^ 62) <> 0 /\
  to_size_t gcc_linux_x86_64_release
    (to_size_t gcc_linux_x86_64_release (2 ^ 62) * ty_sizeof float) <= 2 ^ 16 /\
  OIIO_ALLOCATE_STACK_OR_HEAP gcc_linux_x86_64_release sample_new_array float (2 ^ 62)
    (sample_world sample_cpu sample_arena) =
  (let* var := call_alloca 0 in ret (var, nullptr)) (sample_world sample_cpu sample_arena).
Proof.
  assert (H2 : to_size_t gcc_linux_x86_64_release (2 ^ 62) <> 0) by now vm_compute.
  assert (H3 : to_size_t gcc_linux_x86_64_release
                 (to_size_t gcc_linux_x86_64_release (2 ^ 62) * ty_sizeof float) <= 2 ^ 16)
    by now vm_compute.
  split; [reflexivity|]. split; [exact H2|]. split; [exact H3|].
  exact (stack_or_heap_release_wraps gcc_linux_x86_64_release sample_new_array float (2 ^ 62)
           (sample_world sample_cpu sample_arena) eq_refl H2 H3).
Defined.

(** ** Endianness and deletion *)

(** X16: the two tests are complements of each other exactly when
    [endian::native] is one of [endian::little] and [endian::big]: on
    Windows always, elsewhere when [__BYTE_ORDER__] is one of the two order
    constants.  For any other byte order both tests are false. *)
Theorem endian_tests_complementary (cfg : build) :
  (def_WIN32 cfg = false -> ORDER_LITTLE_ENDIAN cfg <> ORDER_BIG_ENDIAN cfg) ->
  (bigendian cfg = negb (littleendian cfg) <->
   def_WIN32 cfg = true \/ BYTE_ORDER cfg = ORDER_LITTLE_ENDIAN cfg
   \/ BYTE_ORDER cfg = ORDER_BIG_ENDIAN cfg) /\
  (def_WIN32 cfg = false -> BYTE_ORDER cfg <> ORDER_LITTLE_ENDIAN cfg ->
   BYTE_ORDER cfg <> ORDER_BIG_ENDIAN cfg ->
   littleendian cfg = false /\ bigendian cfg = false).
Proof.
  intros Hne. unfold bigendian, littleendian, endian_value.
  destruct (def_WIN32 cfg).
  - split; [|discriminate]. split; [auto | reflexivity].
  - specialize (Hne eq_refl).
    destruct (Z.eqb_spec (BYTE_ORDER cfg) (ORDER_LITTLE_ENDIAN cfg)) as [Hl|Hl],
             (Z.eqb_spec (BYTE_ORDER cfg) (ORDER_BIG_ENDIAN cfg)) as [Hb|Hb];
      cbn; split; try (intros; split; reflexivity); try (intros; congruence);
      split; intros; try reflexivity; try discriminate; try congruence; auto.
    destruct H as [H | [H | H]]; [discriminate | contradiction | contradiction].
Qed.

Lemma endian_tests_complementary_witness :
  (def_WIN32 gcc_linux_s390x = false ->
   ORDER_LITTLE_ENDIAN gcc_linux_s390x <> ORDER_BIG_ENDIAN gcc_linux_s390x) /\
  BYTE_ORDER gcc_linux_s390x = ORDER_BIG_ENDIAN gcc_linux_s390x /\
  bigendian gcc_linux_s390x = negb (littleendian gcc_linux_s390x).
Proof.
  assert (Hne : def_WIN32 gcc_linux_s390x = false ->
                ORDER_LITTLE_ENDIAN gcc_linux_s390x <> ORDER_BIG_ENDIAN gcc_linux_s390x)
    by (intros _; discriminate).
  split; [exact Hne|]. split; [reflexivity|].
  apply (proj1 (endian_tests_complementary gcc_linux_s390x Hne)).
  right. right. reflexivity.
Defined.


